(** * ducttape/services/performance.py: a shallow embedding

    The development follows the layout of the Python module:

    - [Py]: the fragment of the Python runtime the module relies on
      (exceptions, [str.split], [int()], [float()], [%d] formatting, float
      arithmetic on IEEE binary64);
    - the shared summary parser [parse_performance_output] and the nested
      [parse_stats] of the producer worker;
    - one module per service class, with its [__init__], the command string
      it builds and its [_worker];
    - [PerformanceService]: the [start]/[wait]/[stop] life cycle and the
      worker threads, as a transition system over the shared object, with the
      base class [Service], which is not among the sources, as a parameter;
    - the properties, in the order of the specification. *)

From Stdlib Require Import ZArith PrimFloat SpecFloat FloatOps.
From Stdlib Require Import Ascii String DecimalString.
From stdpp Require Import gmap strings list relations.

Local Open Scope string_scope.
Local Open Scope list_scope.

(** ** The Python runtime fragment *)

Module Py.

(** The built-in exceptions that the module can meet. *)
Inductive exn :=
| IndexError | ValueError | AttributeError | TypeError
| AssertionError | ZeroDivisionError | OverflowError.

(** A Python expression either evaluates to a value or raises. *)
Inductive result (A : Type) :=
| Ok (a : A)
| Raise (e : exn).
Arguments Ok {A} a.
Arguments Raise {A} e.

Definition bind {A B} (m : result A) (k : A -> result B) : result B :=
  match m with
  | Ok a => k a
  | Raise e => Raise e
  end.

#[global] Instance result_ret : MRet result := @Ok.
#[global] Instance result_bind : MBind result := fun A B k m => bind m k.

(** Values stored in a metrics dictionary: [int] and [float]. *)
Inductive value :=
| Int (z : Z)
| Float (f : float).

(** The whitespace of [split()] and [strip()] on a byte string: space,
    \t, \n, \v, \f, \r. *)
Definition isspace (c : ascii) : bool :=
  let n := nat_of_ascii c in
  (n =? 32)%nat || ((9 <=? n)%nat && (n <=? 13)%nat).

(** Cut a string at every character satisfying [p]; empty pieces are kept,
    so the result always has one more piece than there are cut points. *)
Fixpoint split_by (p : ascii -> bool) (s : string) : list string :=
  match s with
  | EmptyString => [EmptyString]
  | String c s' =>
      if p c then EmptyString :: split_by p s'
      else match split_by p s' with
           | hd :: tl => String c hd :: tl
           | [] => [String c EmptyString]
           end
  end.

(** [s.split(sep)] for a one-character separator. *)
Definition split_sep (sep : ascii) (s : string) : list string :=
  split_by (Ascii.eqb sep) s.

Definition nonempty (s : string) : bool :=
  match s with EmptyString => false | _ => true end.

(** [s.split()]: cut at runs of whitespace, no empty piece is returned. *)
Definition split (s : string) : list string :=
  List.filter nonempty (split_by isspace s).

(** [l[k]] for a literal index [k >= 0]. *)
Definition index {A} (l : list A) (k : nat) : result A :=
  match l !! k with
  | Some x => Ok x
  | None => Raise IndexError
  end.

(** [s[:-1]]: all but the last character (the empty string stays empty). *)
Fixpoint drop_last (s : string) : string :=
  match s with
  | EmptyString => EmptyString
  | String c EmptyString => EmptyString
  | String c s' => String c (drop_last s')
  end.

(** [s.startswith(p)]. *)
Definition startswith (s p : string) : bool := String.prefix p s.

Fixpoint lstrip (s : string) : string :=
  match s with
  | String c s' => if isspace c then lstrip s' else s
  | EmptyString => EmptyString
  end.

Definition rstrip (s : string) : string :=
  String.rev (lstrip (String.rev s)).

(** [s.strip()], which [int()] and [float()] apply to their argument. *)
Definition strip (s : string) : string := rstrip (lstrip s).

Definition digit (c : ascii) : option Z :=
  let n := nat_of_ascii c in
  if (48 <=? n)%nat && (n <=? 57)%nat then Some (Z.of_nat (n - 48)) else None.

(** Read the longest prefix of decimal digits: the number read (continuing
    from [acc]), how many digits, and what is left. *)
Fixpoint take_digits (acc : Z) (n : nat) (s : string) : Z * nat * string :=
  match s with
  | String c s' =>
      match digit c with
      | Some d => take_digits (10 * acc + d)%Z (S n) s'
      | None => (acc, n, s)
      end
  | EmptyString => (acc, n, s)
  end.

(** An optional sign. *)
Definition take_sign (s : string) : bool * string :=
  match s with
  | String "-" s' => (true, s')
  | String "+" s' => (false, s')
  | _ => (false, s)
  end.

(** [int(s)] on a string, base ten: surrounding whitespace, an optional
    sign, at least one digit and nothing else.  (Digit-group underscores,
    accepted by later Python versions, are not part of the model.) *)
Definition int (s : string) : result Z :=
  let '(neg, body) := take_sign (strip s) in
  match take_digits 0 0 body with
  | (m, S _, EmptyString) => Ok (if neg then (- m)%Z else m)
  | _ => Raise ValueError
  end.

(** *** Floats

    A Python [float] is an IEEE binary64 number: the primitive [float].
    Conversions from decimal text and from integers are correctly rounded
    (to nearest, ties to even); they are written with the reference
    operations of [SpecFloat] on exact integers. *)

Definition prec : Z := 53.
Definition emax : Z := 1024.

(** The float nearest to [(-1)^neg * m * 10^d]. *)
Definition of_decimal (neg : bool) (m d : Z) : float :=
  match m with
  | Zpos p =>
      if (0 <=? d)%Z
      then SF2Prim (binary_normalize prec emax
                      ((if neg then -1 else 1) * (Zpos p * 10 ^ d)) 0 neg)
      else SF2Prim (SFdiv prec emax
                      (S754_finite neg p 0)
                      (S754_finite false (Z.to_pos (10 ^ (- d))) 0))
  | _ => if neg then (-0)%float else 0%float
  end.

Definition lower (c : ascii) : ascii :=
  let n := nat_of_ascii c in
  if (65 <=? n)%nat && (n <=? 90)%nat then ascii_of_nat (n + 32) else c.

Fixpoint lowercase (s : string) : string :=
  match s with
  | EmptyString => EmptyString
  | String c s' => String (lower c) (lowercase s')
  end.

(** The exponent part of a decimal literal: nothing, or [e]/[E], an optional
    sign and at least one digit, up to the end of the string. *)
Definition take_exponent (s : string) : option Z :=
  match s with
  | EmptyString => Some 0%Z
  | String c s' =>
      if Ascii.eqb (lower c) "e" then
        let '(neg, body) := take_sign s' in
        match take_digits 0 0 body with
        | (e, S _, EmptyString) => Some (if neg then (- e)%Z else e)
        | _ => None
        end
      else None
  end.

(** [float(s)] on a string: surrounding whitespace, an optional sign, then
    [inf], [infinity] or [nan] in any case, or digits with an optional
    fraction point and an optional exponent, at least one digit in the
    mantissa. *)
Definition float (s : string) : result PrimFloat.float :=
  let '(neg, body) := take_sign (strip s) in
  let word := lowercase body in
  if String.eqb word "inf" || String.eqb word "infinity" then
    Ok (if neg then neg_infinity else infinity)
  else if String.eqb word "nan" then Ok nan
  else
    let '(m1, n1, r1) := take_digits 0 0 body in
    let '(m, n2, r2) :=
      match r1 with
      | String "." r => take_digits m1 0 r
      | _ => (m1, 0%nat, r1)
      end in
    match (n1 + n2)%nat, take_exponent r2 with
    | S _, Some e => Ok (of_decimal neg m (e - Z.of_nat n2))
    | _, _ => Raise ValueError
    end.

(** [float(z)] on an integer: the nearest float, [OverflowError] when the
    integer is out of the range of binary64. *)
Definition float_of_int (z : Z) : result PrimFloat.float :=
  let f := SF2Prim (binary_normalize prec emax z 0 false) in
  if is_infinity f then Raise OverflowError else Ok f.

(** [z / f] for an [int] and a [float]: the integer is converted first, a
    zero divisor raises. *)
Definition int_div_float (z : Z) (f : PrimFloat.float) : result PrimFloat.float :=
  a ← float_of_int z;
  if is_zero f then Raise ZeroDivisionError else Ok (a / f)%float.

(** [s.split(sep)] where [s] may be [None], which has no such method. *)
Definition split_on (sep : ascii) (s : option string) : result (list string) :=
  match s with
  | Some s => Ok (split_sep sep s)
  | None => Raise AttributeError
  end.

(** ["%d" % z]. *)
Definition format_d (z : Z) : string := NilZero.string_of_int (Z.to_int z).

End Py.

(** ** The summary line parsers *)

(** A metrics record is a dictionary from metric names to numbers. *)
Abbreviation record := (gmap string Py.value).

(** [parts[k].split()[0]]: the leading token of field [k]. *)
Definition leading_token (parts : list string) (k : nat) : Py.result string :=
  p ← Py.index parts k;
  Py.index (Py.split p) 0.

(** [parts[1].split('(')[1].split()[0]]: the leading token inside the first
    parenthesis of field 1. *)
Definition paren_token (parts : list string) : Py.result string :=
  p ← Py.index parts 1;
  q ← Py.index (Py.split_sep "(" p) 1;
  Py.index (Py.split q) 0.

(** The nine-entry dictionary display, written three times in the source with
    the same text (in [parse_stats], in the REST producer worker and in
    [parse_performance_output]); its entries are evaluated in order. *)
Definition summary_dict (parts : list string) : Py.result record :=
  records ← leading_token parts 0 ≫= Py.int;
  records_per_sec ← leading_token parts 1 ≫= Py.float;
  mbps ← paren_token parts ≫= Py.float;
  latency_avg_ms ← leading_token parts 2 ≫= Py.float;
  latency_max_ms ← leading_token parts 3 ≫= Py.float;
  latency_50th_ms ← leading_token parts 4 ≫= Py.float;
  latency_95th_ms ← leading_token parts 5 ≫= Py.float;
  latency_99th_ms ← leading_token parts 6 ≫= Py.float;
  latency_999th_ms ← leading_token parts 7 ≫= Py.float;
  mret (<["records" := Py.Int records]>
       (<["records_per_sec" := Py.Float records_per_sec]>
       (<["mbps" := Py.Float mbps]>
       (<["latency_avg_ms" := Py.Float latency_avg_ms]>
       (<["latency_max_ms" := Py.Float latency_max_ms]>
       (<["latency_50th_ms" := Py.Float latency_50th_ms]>
       (<["latency_95th_ms" := Py.Float latency_95th_ms]>
       (<["latency_99th_ms" := Py.Float latency_99th_ms]>
       (<["latency_999th_ms" := Py.Float latency_999th_ms]> ∅))))))))).

(** [parse_stats], nested in [ProducerPerformanceService._worker]. *)
Definition parse_stats (line : option string) : Py.result record :=
  parts ← Py.split_on "," line;
  summary_dict parts.

(** [parse_performance_output]: the nine entries, then the three derived
    ones, computed from entries read back from the dictionary.  The last
    branch is not reached, the three entries read were just stored as an
    [int] and two [float]s. *)
Definition parse_performance_output (summary : option string) : Py.result record :=
  parts ← Py.split_on "," summary;
  results ← summary_dict parts;
  match results !! "mbps", results !! "records", results !! "records_per_sec" with
  | Some (Py.Float mbps), Some (Py.Int records), Some (Py.Float records_per_sec) =>
      q ← Py.int_div_float records records_per_sec;
      let results := <["total_mb" := Py.Float (mbps * q)%float]> results in
      let results := <["rate_mbps" := Py.Float mbps]> results in
      let results := <["rate_mps" := Py.Float records_per_sec]> results in
      mret results
  | _, _, _ => Py.Raise Py.TypeError
  end.

(** ** Nodes, collaborators and thread actions *)

(** A cluster node with its account: the host name and, for each command,
    the lines that the remote process writes before it exits
    ([node.account.ssh_capture(cmd)]).  Streams are finite and are read to
    their end; a channel that fails is outside the model. *)
Record Node := {
  hostname : string;
  ssh_capture : string -> list string
}.

(** The services a benchmark is run against, seen through the getters that
    the workers call. *)
Record KafkaService := {
  bootstrap_servers : string;
  zk_connect_setting : string
}.
Record RestService := { rest_url : string }.
Record SchemaRegistryService := { schema_registry_url : string }.
Record HadoopService := { is_HadoopV1Service : bool }.

(** [settings.items()], in the iteration order of the dictionary, keys and
    values already passed through [str()]. *)
Abbreviation Settings := (list (string * string)).

(** The loop [for key,value in self.settings.items(): cmd += " %s=%s" % ...]. *)
Definition add_settings (cmd : string) (settings : Settings) : string :=
  fold_left (fun cmd kv => cmd +:+ " " +:+ kv.1 +:+ "=" +:+ kv.2) settings cmd.

Inductive level := DEBUG | INFO | ERROR.

Inductive method := Start | Wait | Stop.

(** What a thread does, one atomic step at a time.  Logger calls carry their
    level and format string; the arguments of the format are left out. *)
Inductive action :=
| Log (lvl : level) (fmt : string)
| Ssh (node : Node) (cmd : string)
    (** [node.account.ssh_capture(cmd)] *)
| External (name : string) (node : Node)
    (** a call on a collaborator: [self.hadoop.distribute_hdfs_confs(node)],
        [node.account.create_file(...)] and the like *)
| Free (node : Node)
    (** [node.free()] *)
| AppendStat (slot : nat) (r : record)
    (** [self.stats[slot].append(r)] inside [try: ... except: pass] *)
| StoreResult (slot : nat) (r : record) (handler : option string)
    (** [self.results[slot] = r]; [Some fmt] when the statement is inside
        [try: ... except: self.logger.error(fmt, ...)], [None] when an
        [IndexError] of the store is not caught *)
| Die (e : Py.exn)
    (** an exception leaves [_worker]: the thread ends *)
| Spawn (idx : nat)
    (** [worker.start()] for the thread of node [idx] *)
| Returned (m : method)
| Raised (m : method) (e : Py.exn).

(** The end of a worker that parses the last line outside any [try]. *)
Definition store_or_die (slot : nat) (parsed : Py.result record) : list action :=
  match parsed with
  | Py.Ok r => [StoreResult slot r None]
  | Py.Raise e => [Die e]
  end.

(** The loop shared by the workers that keep the last line:
    [last = None; for line in stream: <body>; last = line].  The state is
    the value of [last] and the actions done so far. *)
Definition consume (body : string -> list action) (lines : list string)
    : option string * list action :=
  fold_left (fun st line => (Some line, st.2 ++ body line)) lines (None, []).

(** ** The service classes *)

Module ProducerPerformanceService.

Record Args := {
  topic : string; num_records : Z; record_size : Z; throughput : Z
}.

Record t := {
  kafka : KafkaService;
  args : Args;
  settings : Settings;
  intermediate_stats : bool
}.

Definition __init__ (kafka : KafkaService) (topic : string)
    (num_records record_size throughput : Z) (settings : Settings)
    (intermediate_stats : bool) : t :=
  {| kafka := kafka;
     args := {| topic := topic; num_records := num_records;
                record_size := record_size; throughput := throughput |};
     settings := settings;
     intermediate_stats := intermediate_stats |}.

Definition cmd (self : t) : string :=
  add_settings
    ("/opt/kafka/bin/kafka-run-class.sh org.apache.kafka.clients.tools.ProducerPerformance "
     +:+ topic (args self) +:+ " " +:+ Py.format_d (num_records (args self))
     +:+ " " +:+ Py.format_d (record_size (args self))
     +:+ " " +:+ Py.format_d (throughput (args self))
     +:+ " bootstrap.servers=" +:+ bootstrap_servers (kafka self))
    (settings self).

(** The body of the [for line in ...] loop. *)
Definition on_line (self : t) (idx : nat) (line : string) : list action :=
  Log DEBUG "Producer performance %d: %s" ::
  (if intermediate_stats self then
     match parse_stats (Some line) with
     | Py.Ok r => [AppendStat (idx - 1) r]
     | Py.Raise _ => []
     end
   else []).

(** The final [try: self.results[idx-1] = parse_stats(last)]. *)
Definition on_end (idx : nat) (last : option string) : list action :=
  match parse_stats last with
  | Py.Ok r => [StoreResult (idx - 1) r (Some "Bad last line: %s")]
  | Py.Raise _ => [Log ERROR "Bad last line: %s"]
  end.

Definition _worker (self : t) (idx : nat) (node : Node) : list action :=
  let '(last, done) := consume (on_line self idx) (ssh_capture node (cmd self)) in
  [Log DEBUG "Producer performance %d command: %s"; Ssh node (cmd self)]
  ++ done
  ++ on_end idx last.

End ProducerPerformanceService.

Module RestProducerPerformanceService.

Record Args := {
  topic : string; num_records : Z; record_size : Z; batch_size : Z;
  throughput : Z
}.

Record t := { rest : RestService; args : Args; settings : Settings }.

Definition __init__ (rest : RestService) (topic : string)
    (num_records record_size batch_size throughput : Z)
    (settings : Settings) : t :=
  {| rest := rest;
     args := {| topic := topic; num_records := num_records;
                record_size := record_size; batch_size := batch_size;
                throughput :=
                  if (0 <? throughput)%Z then throughput else (- batch_size)%Z |};
     settings := settings |}.

Definition cmd (self : t) : string :=
  add_settings
    ("/opt/kafka-rest/bin/kafka-rest-run-class io.confluent.kafkarest.tools.ProducerPerformance "
     +:+ "'" +:+ rest_url (rest self) +:+ "' " +:+ topic (args self)
     +:+ " " +:+ Py.format_d (num_records (args self))
     +:+ " " +:+ Py.format_d (record_size (args self))
     +:+ " " +:+ Py.format_d (batch_size (args self))
     +:+ " " +:+ Py.format_d (throughput (args self)))
    (settings self).

(** [parts = last.split(','); self.results[idx-1] = {...}]. *)
Definition parse_last (last : option string) : Py.result record :=
  parts ← Py.split_on "," last;
  summary_dict parts.

Definition _worker (self : t) (idx : nat) (node : Node) : list action :=
  let '(last, done) :=
    consume (fun _ => [Log DEBUG "REST producer performance %d: %s"]) (ssh_capture node (cmd self)) in
  [Log DEBUG "REST producer performance %d command: %s"; Ssh node (cmd self)]
  ++ done
  ++ store_or_die (idx - 1) (parse_last last).

End RestProducerPerformanceService.

Module ConsumerPerformanceService.

Record Args := {
  topic : string; num_records : Z; throughput : Z; threads : Z
}.

Record t := { kafka : KafkaService; args : Args; settings : Settings }.

(** [threads] has the default value 1 in the source. *)
Definition __init__ (kafka : KafkaService) (topic : string)
    (num_records throughput threads : Z) (settings : Settings) : t :=
  {| kafka := kafka;
     args := {| topic := topic; num_records := num_records;
                throughput := throughput; threads := threads |};
     settings := settings |}.

Definition cmd (self : t) : string :=
  add_settings
    ("/opt/kafka/bin/kafka-consumer-perf-test.sh "
     +:+ "--topic " +:+ topic (args self)
     +:+ " --messages " +:+ Py.format_d (num_records (args self))
     +:+ " --zookeeper " +:+ zk_connect_setting (kafka self))
    (settings self).

Definition parse_last (last : option string) : Py.result record :=
  parts ← Py.split_on "," last;
  total_mb ← Py.index parts 3 ≫= Py.float;
  mbps ← Py.index parts 4 ≫= Py.float;
  records_per_sec ← Py.index parts 6 ≫= Py.float;
  mret (<["total_mb" := Py.Float total_mb]>
       (<["mbps" := Py.Float mbps]>
       (<["records_per_sec" := Py.Float records_per_sec]> ∅))).

Definition _worker (self : t) (idx : nat) (node : Node) : list action :=
  let '(last, done) :=
    consume (fun _ => [Log DEBUG "Consumer performance %d: %s"]) (ssh_capture node (cmd self)) in
  [Log DEBUG "Consumer performance %d command: %s"; Ssh node (cmd self)]
  ++ done
  ++ store_or_die (idx - 1) (parse_last last).

End ConsumerPerformanceService.

Module RestConsumerPerformanceService.

Record Args := { topic : string; num_records : Z; throughput : Z }.

Record t := { rest : RestService; args : Args; settings : Settings }.

Definition __init__ (rest : RestService) (topic : string)
    (num_records throughput : Z) (settings : Settings) : t :=
  {| rest := rest;
     args := {| topic := topic; num_records := num_records;
                throughput :=
                  if (0 <? throughput)%Z then throughput else (-100)%Z |};
     settings := settings |}.

Definition cmd (self : t) : string :=
  add_settings
    ("/opt/kafka-rest/bin/kafka-rest-run-class io.confluent.kafkarest.tools.ConsumerPerformance "
     +:+ "'" +:+ rest_url (rest self) +:+ "' " +:+ topic (args self)
     +:+ " " +:+ Py.format_d (num_records (args self))
     +:+ " " +:+ Py.format_d (throughput (args self)))
    (settings self).

Definition _worker (self : t) (idx : nat) (node : Node) : list action :=
  let '(last, done) :=
    consume (fun _ => [Log DEBUG "REST Consumer performance %d: %s"]) (ssh_capture node (cmd self)) in
  [Log DEBUG "REST Consumer performance %d command: %s"; Ssh node (cmd self)]
  ++ done
  ++ store_or_die (idx - 1) (parse_performance_output last).

End RestConsumerPerformanceService.

Module SchemaRegistryPerformanceService.

Record Args := { subject : string; num_schemas : Z; schemas_per_sec : Z }.

Record t := {
  schema_registry : SchemaRegistryService;
  args : Args;
  settings : Settings
}.

Definition __init__ (schema_registry : SchemaRegistryService)
    (subject : string) (num_schemas schemas_per_sec : Z)
    (settings : Settings) : t :=
  {| schema_registry := schema_registry;
     args := {| subject := subject; num_schemas := num_schemas;
                schemas_per_sec := schemas_per_sec |};
     settings := settings |}.

Definition cmd (self : t) : string :=
  add_settings
    ("/opt/schema-registry/bin/schema-registry-run-class io.confluent.kafka.schemaregistry.tools.SchemaRegistryPerformance "
     +:+ "'" +:+ schema_registry_url (schema_registry self) +:+ "' "
     +:+ subject (args self)
     +:+ " " +:+ Py.format_d (num_schemas (args self))
     +:+ " " +:+ Py.format_d (schemas_per_sec (args self)))
    (settings self).

Definition _worker (self : t) (idx : nat) (node : Node) : list action :=
  let '(last, done) :=
    consume (fun _ => [Log INFO "Schema Registry performance %d: %s"]) (ssh_capture node (cmd self)) in
  [Log DEBUG "Schema Registry performance %d command: %s"; Ssh node (cmd self)]
  ++ done
  ++ store_or_die (idx - 1) (parse_performance_output last).

End SchemaRegistryPerformanceService.

Module HadoopPerformanceService.

Record Args := {
  hadoop_path : string; hadoop_example_jar : string; hadoop_conf_dir : string
}.

Record t := { hadoop : HadoopService; settings : Settings; args : Args }.

Definition __init__ (hadoop : HadoopService) (settinss : Settings) : t :=
  {| hadoop := hadoop;
     settings := settinss;
     args := {| hadoop_path := "/opt/hadoop-cdh";
                hadoop_example_jar :=
                  "share/hadoop/mapreduce/hadoop-mapreduce-examples-2.5.0-cdh5.3.0.jar";
                hadoop_conf_dir := "/mnt" |} |}.

(** The copy of [self.args] the worker formats, after its update for a
    version 1 Hadoop. *)
Definition worker_args (self : t) : Args :=
  if is_HadoopV1Service (hadoop self) then
    {| hadoop_path := hadoop_path (args self);
       hadoop_example_jar :=
         "share/hadoop/mapreduce1/hadoop-examples-2.5.0-mr1-cdh5.3.0.jar";
       hadoop_conf_dir := hadoop_conf_dir (args self) |}
  else args self.

Definition cmd (self : t) : string :=
  let a := worker_args self in
  add_settings
    ("HADOOP_CONF_DIR=" +:+ hadoop_conf_dir a +:+ " " +:+ hadoop_path a
     +:+ "/bin/hadoop jar " +:+ hadoop_path a +:+ "/" +:+ hadoop_example_jar a
     +:+ " pi 2 10")
    (settings self).

Definition _worker (self : t) (idx : nat) (node : Node) : list action :=
  let lines := ssh_capture node (cmd self) in
  [External "distribute_hdfs_confs" node;
   External (if is_HadoopV1Service (hadoop self)
             then "distribute_mr1_confs" else "distribute_yarn_confs") node;
   Log DEBUG "Hadoop performance %d command: %s";
   Ssh node (cmd self)]
  ++ map (fun _ => Log INFO "Camus performance %d: %s") lines.

End HadoopPerformanceService.

Module CamusPerformanceService.

Record Args := {
  hadoop_path : string; camus_path : string; camus_jar : string;
  camus_property : string; camus_main : string; broker_list : string;
  schema_registry_url_ : string; avro_producer_path : string;
  avro_producer : string; topic : string; num_messages : Z
}.

Record t := {
  kafka : KafkaService;
  hadoop : HadoopService;
  schema_registry : SchemaRegistryService;
  settings : Settings;
  args : Args
}.

Definition __init__ (kafka : KafkaService) (hadoop : HadoopService)
    (schema_registry : SchemaRegistryService) (settings : Settings) : t :=
  {| kafka := kafka; hadoop := hadoop; schema_registry := schema_registry;
     settings := settings;
     args := {| hadoop_path := "/opt/hadoop-cdh";
                camus_path := "/opt/camus/camus-example/";
                camus_jar := "camus-example-0.1.0-SNAPSHOT-shaded.jar";
                camus_property := "/mnt/camus.properties";
                camus_main := "com.linkedin.camus.etl.kafka.CamusJob";
                broker_list := bootstrap_servers kafka;
                schema_registry_url_ := schema_registry_url schema_registry;
                avro_producer_path := "/vagrant/avro-producer";
                avro_producer :=
                  "avro-producer-1.0-SNAPSHOT-jar-with-dependencies.jar";
                topic := "testAvro";
                num_messages := 10 |} |}.

Definition produce_cmd (self : t) : string :=
  let a := args self in
  "java -jar " +:+ avro_producer_path a +:+ "/" +:+ avro_producer a +:+ " "
  +:+ topic a +:+ " " +:+ broker_list a +:+ " " +:+ schema_registry_url_ a
  +:+ " " +:+ Py.format_d (num_messages a).

Definition cmd (self : t) : string :=
  let a := args self in
  add_settings
    ("HADOOP_CONF_DIR=/mnt " +:+ hadoop_path a +:+ "/bin/hadoop jar "
     +:+ camus_path a +:+ "/target/" +:+ camus_jar a +:+ " " +:+ camus_main a
     +:+ " -D schema.registry.url=" +:+ schema_registry_url_ a
     +:+ " -P " +:+ camus_property a
     +:+ " -Dlog4j.configuration=file:" +:+ camus_path a +:+ "/log4j.xml")
    (settings self).

(** [create_camus_props]: the template file is read and filled in, then
    written on the node; only the write is recorded. *)
Definition create_camus_props (node : Node) : list action :=
  [External "create_file" node].

Definition _worker (self : t) (idx : nat) (node : Node) : list action :=
  [Log DEBUG "Avro producer %d command: %s"; Ssh node (produce_cmd self)]
  ++ map (fun _ => Log INFO "Avro producer %d: %s")
       (ssh_capture node (produce_cmd self))
  ++ [External "distribute_hdfs_confs" node;
      External (if is_HadoopV1Service (hadoop self)
                then "distribute_mr1_confs" else "distribute_yarn_confs") node]
  ++ create_camus_props node
  ++ [Log DEBUG "Camus performance %d command: %s"; Ssh node (cmd self)]
  ++ map (fun _ => Log INFO "Camus performance %d: %s")
       (ssh_capture node (cmd self)).

End CamusPerformanceService.

Module EndToEndLatencyService.

Record Args := {
  topic : string; num_records : Z; consumer_fetch_max_wait : Z; acks : Z
}.

Record t := { kafka : KafkaService; args : Args }.

(** [consumer_fetch_max_wait] and [acks] have the default values 100 and 1
    in the source. *)
Definition __init__ (kafka : KafkaService) (topic : string)
    (num_records consumer_fetch_max_wait acks : Z) : t :=
  {| kafka := kafka;
     args := {| topic := topic; num_records := num_records;
                consumer_fetch_max_wait := consumer_fetch_max_wait;
                acks := acks |} |}.

Definition cmd (self : t) : string :=
  "/opt/kafka/bin/kafka-run-class.sh kafka.tools.TestEndToEndLatency "
  +:+ bootstrap_servers (kafka self) +:+ " " +:+ zk_connect_setting (kafka self)
  +:+ " " +:+ topic (args self)
  +:+ " " +:+ Py.format_d (num_records (args self))
  +:+ " " +:+ Py.format_d (consumer_fetch_max_wait (args self))
  +:+ " " +:+ Py.format_d (acks (args self)).

(** The two [if]s of the loop body, on the local dictionary [results]. *)
Definition on_line (line : string) (results : record) : Py.result record :=
  results ←
    (if Py.startswith line "Avg latency:" then
       v ← Py.index (Py.split line) 2 ≫= Py.float;
       mret (<["latency_avg_ms" := Py.Float v]> results)
     else mret results);
  if Py.startswith line "Percentiles" then
    v ← (tok ← Py.index (Py.split line) 3; Py.float (Py.drop_last tok));
    let results := <["latency_50th_ms" := Py.Float v]> results in
    v ← (tok ← Py.index (Py.split line) 6; Py.float (Py.drop_last tok));
    let results := <["latency_99th_ms" := Py.Float v]> results in
    v ← Py.index (Py.split line) 9 ≫= Py.float;
    mret (<["latency_999th_ms" := Py.Float v]> results)
  else mret results.

(** The loop over the stream, then the store of [results]. *)
Fixpoint loop (slot : nat) (results : record) (lines : list string) : list action :=
  match lines with
  | [] => [StoreResult slot results None]
  | line :: lines =>
      Log DEBUG "End-to-end latency %d: %s" ::
      match on_line line results with
      | Py.Ok results => loop slot results lines
      | Py.Raise e => [Die e]
      end
  end.

Definition _worker (self : t) (idx : nat) (node : Node) : list action :=
  [Log DEBUG "End-to-end latency %d command: %s"; Ssh node (cmd self)]
  ++ loop (idx - 1) ∅ (ssh_capture node (cmd self)).

End EndToEndLatencyService.

(** The eight concrete classes, as one type; [worker] is the dynamic
    dispatch of [self._worker]. *)
Inductive service :=
| Producer (self : ProducerPerformanceService.t)
| RestProducer (self : RestProducerPerformanceService.t)
| Consumer (self : ConsumerPerformanceService.t)
| RestConsumer (self : RestConsumerPerformanceService.t)
| SchemaRegistry (self : SchemaRegistryPerformanceService.t)
| Hadoop (self : HadoopPerformanceService.t)
| Camus (self : CamusPerformanceService.t)
| EndToEndLatency (self : EndToEndLatencyService.t).

Definition worker (s : service) (idx : nat) (node : Node) : list action :=
  match s with
  | Producer self => ProducerPerformanceService._worker self idx node
  | RestProducer self => RestProducerPerformanceService._worker self idx node
  | Consumer self => ConsumerPerformanceService._worker self idx node
  | RestConsumer self => RestConsumerPerformanceService._worker self idx node
  | SchemaRegistry self => SchemaRegistryPerformanceService._worker self idx node
  | Hadoop self => HadoopPerformanceService._worker self idx node
  | Camus self => CamusPerformanceService._worker self idx node
  | EndToEndLatency self => EndToEndLatencyService._worker self idx node
  end.

(** ** The life cycle: [PerformanceService] *)

(** A Python attribute of the object: not set yet, [None], or a value. *)
Inductive attr (A : Type) :=
| Unset
| PyNone
| Bound (a : A).
Arguments Unset {A}.
Arguments PyNone {A}.
Arguments Bound {A} a.

(** A worker thread: the arguments it was started with and what it still
    has to do.  It has ended when nothing is left. *)
Record Thread := {
  th_idx : nat;
  th_node : Node;
  th_todo : list action
}.

Inductive actor := Main | Worker (idx : nat).

Abbreviation event := (actor * action)%type.

Module PerformanceService.
Section WithBase.

(** The base class [Service] is not part of the sources at hand.  Its
    state is an opaque [Base]; [Service.start] hands out the node list
    ([self.nodes]), and the three methods return without touching the
    attributes of [PerformanceService] and without releasing nodes. *)
Variable Base : Type.
Variable Service_start : Base -> Base * list Node.
Variable Service_wait : Base -> Base.
Variable Service_stop : Base -> Base.

(** The object ([self] to [stats]), the threads started so far, whether a
    list still refers to them or not, and the actions performed so far.
    [worker_threads] holds handles: positions in [threads]. *)
Record state := {
  self : service;
  base : Base;
  nodes : list Node;
  worker_threads : attr (list nat);
  results : list (option record);
  stats : list (list record);
  threads : list Thread;
  trace : list event
}.

Definition set_base (b : Base) (s : state) : state :=
  {| self := self s; base := b; nodes := nodes s;
     worker_threads := worker_threads s; results := results s;
     stats := stats s; threads := threads s; trace := trace s |}.

Definition set_worker_threads (w : attr (list nat)) (s : state) : state :=
  {| self := self s; base := base s; nodes := nodes s;
     worker_threads := w; results := results s;
     stats := stats s; threads := threads s; trace := trace s |}.

Definition set_results (r : list (option record)) (s : state) : state :=
  {| self := self s; base := base s; nodes := nodes s;
     worker_threads := worker_threads s; results := r;
     stats := stats s; threads := threads s; trace := trace s |}.

Definition set_stats (st : list (list record)) (s : state) : state :=
  {| self := self s; base := base s; nodes := nodes s;
     worker_threads := worker_threads s; results := results s;
     stats := st; threads := threads s; trace := trace s |}.

Definition set_todo (h : nat) (todo : list action) (s : state) : state :=
  {| self := self s; base := base s; nodes := nodes s;
     worker_threads := worker_threads s; results := results s;
     stats := stats s;
     threads := alter (fun th => {| th_idx := th_idx th; th_node := th_node th;
                                    th_todo := todo |}) h (threads s);
     trace := trace s |}.

Definition emit (who : actor) (acts : list action) (s : state) : state :=
  {| self := self s; base := base s; nodes := nodes s;
     worker_threads := worker_threads s; results := results s;
     stats := stats s; threads := threads s;
     trace := trace s ++ map (pair who) acts |}.

(** The object as its constructor leaves it. *)
Definition init (svc : service) (b : Base) : state :=
  {| self := svc; base := b; nodes := []; worker_threads := Unset;
     results := []; stats := []; threads := []; trace := [] |}.

(** The result of a call by the main thread: it returns, it raises, or
    it cannot return yet ([join] on a thread that is still running). *)
Inductive outcome :=
| Return (s : state)
| Raise (e : Py.exn) (s : state)
| Block.

(** [start]: the calls of the main thread are taken as one step; the
    threads run from the next step on. *)
Definition start (s : state) : state :=
  let '(b, ns) := Service_start (base s) in
  {| self := self s;
     base := b;
     nodes := ns;
     worker_threads := Bound (seq (length (threads s)) (length ns));
     results := replicate (length ns) None;
     stats := replicate (length ns) [];
     threads :=
       threads s ++
       imap (fun i node => {| th_idx := S i; th_node := node;
                              th_todo := worker (self s) (S i) node |}) ns;
     trace :=
       trace s ++
       map (pair Main)
         (flat_map (fun i => [Log INFO "Running %s node %d on %s"; Spawn (S i)])
            (seq 0 (length ns))
          ++ [Returned Start]) |}.

Definition finished (s : state) (h : nat) : bool :=
  match threads s !! h with
  | Some {| th_todo := [] |} => true
  | _ => false
  end.

(** [wait]: returns once every thread of the list has ended. *)
Definition wait (s : state) : outcome :=
  let s := set_base (Service_wait (base s)) s in
  match worker_threads s with
  | Unset => Raise Py.AttributeError (emit Main [Raised Wait Py.AttributeError] s)
  | PyNone => Raise Py.TypeError (emit Main [Raised Wait Py.TypeError] s)
  | Bound hs =>
      if forallb (finished s) hs then
        Return
          (emit Main
             (map (fun _ => Log DEBUG "Waiting for %s worker %d to finish") hs
              ++ [Returned Wait])
             (set_worker_threads PyNone s))
      else Block
  end.

(** [stop], with assertions enabled. *)
Definition stop (s : state) : outcome :=
  let s := set_base (Service_stop (base s)) s in
  match worker_threads s with
  | Unset => Raise Py.AttributeError (emit Main [Raised Stop Py.AttributeError] s)
  | Bound _ => Raise Py.AssertionError (emit Main [Raised Stop Py.AssertionError] s)
  | PyNone =>
      Return
        (emit Main
           (flat_map (fun node => [Log DEBUG "Stopping %s node %d on %s"; Free node])
              (nodes s)
            ++ [Returned Stop])
           s)
  end.

(** One step of the thread with handle [h]: its next action.  The two
    stores check the index as Python does. *)
Definition thread_step (h : nat) (s : state) : option state :=
  match threads s !! h with
  | Some th =>
      match th_todo th with
      | [] => None
      | a :: rest =>
          let who := Worker (th_idx th) in
          Some
            match a with
            | AppendStat slot r =>
                if (slot <? length (stats s))%nat then
                  emit who [a]
                    (set_stats (alter (fun l => l ++ [r]) slot (stats s))
                       (set_todo h rest s))
                else set_todo h rest s
            | StoreResult slot r handler =>
                if (slot <? length (results s))%nat then
                  emit who [a]
                    (set_results (<[slot := Some r]> (results s))
                       (set_todo h rest s))
                else
                  match handler with
                  | Some fmt => emit who [Log ERROR fmt] (set_todo h rest s)
                  | None => emit who [Die Py.IndexError] (set_todo h [] s)
                  end
            | Die e => emit who [a] (set_todo h [] s)
            | _ => emit who [a] (set_todo h rest s)
            end
      end
  | None => None
  end.

(** A step of some thread. *)
Definition thread_steps (s s' : state) : Prop :=
  exists h, thread_step h s = Some s'.

(** The system: calls of the three methods by the main thread, in any
    order, interleaved with steps of the threads. *)
Inductive step : state -> state -> Prop :=
| step_start s : step s (start s)
| step_wait_return s s' : wait s = Return s' -> step s s'
| step_wait_raise s e s' : wait s = Raise e s' -> step s s'
| step_stop_return s s' : stop s = Return s' -> step s s'
| step_stop_raise s e s' : stop s = Raise e s' -> step s s'
| step_thread s h s' : thread_step h s = Some s' -> step s s'.

Definition reachable (svc : service) (b : Base) (s : state) : Prop :=
  rtc step (init svc b) s.

(** Whether, in a trace, [wait] has returned since the last [start]. *)
Definition waited_from (w : bool) (tr : list event) : bool :=
  fold_left
    (fun w ev =>
       match ev with
       | (Main, Returned Wait) => true
       | (Main, Returned Start) => false
       | _ => w
       end) tr w.

Definition waited (tr : list event) : bool := waited_from false tr.

End WithBase.
End PerformanceService.

Arguments PerformanceService.self {Base} s.
Arguments PerformanceService.base {Base} s.
Arguments PerformanceService.nodes {Base} s.
Arguments PerformanceService.worker_threads {Base} s.
Arguments PerformanceService.results {Base} s.
Arguments PerformanceService.stats {Base} s.
Arguments PerformanceService.threads {Base} s.
Arguments PerformanceService.trace {Base} s.
Arguments PerformanceService.init {Base} svc b.
Arguments PerformanceService.start {Base} Service_start s.
Arguments PerformanceService.wait {Base} Service_wait s.
Arguments PerformanceService.stop {Base} Service_stop s.
Arguments PerformanceService.thread_step {Base} h s.
Arguments PerformanceService.thread_steps {Base} s s'.
Arguments PerformanceService.step {Base} Service_start Service_wait Service_stop _ _.
Arguments PerformanceService.reachable {Base} Service_start Service_wait Service_stop svc b s.
Arguments PerformanceService.Return {Base} s.
Arguments PerformanceService.Raise {Base} e s.
Arguments PerformanceService.Block {Base}.
Arguments PerformanceService.set_todo {Base} h todo s.
Arguments PerformanceService.set_base {Base} b s.
Arguments PerformanceService.set_results {Base} r s.
Arguments PerformanceService.set_stats {Base} st s.
Arguments PerformanceService.set_worker_threads {Base} w s.
Arguments PerformanceService.emit {Base} who acts s.
Arguments PerformanceService.finished {Base} s h.
Arguments PerformanceService.waited tr : simpl never.
Arguments PerformanceService.waited_from w tr : simpl never.

(** ** Vocabulary of the properties, and sample runs *)

(** The summary line of the specification. *)
Definition summary_line : string :=
  "1000 records, 500.0 records/sec (2.5 MB/sec), 10.0 ms avg, 50.0 ms max, 8.0 ms 50th, 20.0 ms 95th, 30.0 ms 99th, 40.0 ms 99.9th".

Definition is_Die (a : action) : bool :=
  match a with Die _ => true | _ => false end.

Definition is_StoreResult (a : action) : bool :=
  match a with StoreResult _ _ _ => true | _ => false end.

(** A node whose benchmark prints a log line, then a summary. *)
Definition noisy_node : Node :=
  {| hostname := "worker1";
     ssh_capture := fun _ =>
       ["SLF4J: Failed to load class";
        "1000 records, 500.0 records/sec (2.5 MB/sec), 10.0 ms avg, 50.0 ms max, 8.0 ms 50th, 20.0 ms 95th, 30.0 ms 99th, 40.0 ms 99.9th"] |}.

(** A producer service with intermediate sampling, and one without. *)
Definition sampling_producer : ProducerPerformanceService.t :=
  ProducerPerformanceService.__init__
    {| bootstrap_servers := "k1:9092"; zk_connect_setting := "z1:2181" |}
    "test" 1000 100 (-1) [] true.

(** A node whose benchmark ends on a line that is no summary. *)
Definition garbled_node : Node :=
  {| hostname := "worker1";
     ssh_capture := fun _ => ["Exception in thread main"] |}.

Definition rest_producer : RestProducerPerformanceService.t :=
  RestProducerPerformanceService.__init__
    {| rest_url := "http://rest1:8082" |} "test" 1000 100 10 (-1) [].

Definition plain_producer : ProducerPerformanceService.t :=
  ProducerPerformanceService.__init__
    {| bootstrap_servers := "k1:9092"; zk_connect_setting := "z1:2181" |}
    "test" 1000 100 (-1) [] false.

(** The end-to-end latency service, the Percentiles line as the
    specification writes it and as the extraction needs it, and a node that
    prints the average line and a Percentiles line. *)
Definition latency_service : EndToEndLatencyService.t :=
  EndToEndLatencyService.__init__
    {| bootstrap_servers := "k1:9092"; zk_connect_setting := "z1:2181" |}
    "test" 1000 100 1.

Definition percentiles_with_unit : string :=
  "Percentiles: 50th = 10.0ms, 99th = 30.0ms, 99.9th = 40.0".

Definition percentiles_bare : string :=
  "Percentiles: 50th = 10.0, 99th = 30.0, 99.9th = 40.0".

Definition latency_node (percentiles : string) : Node :=
  {| hostname := "worker1";
     ssh_capture := fun _ => ["Avg latency: 12.3 ms"; percentiles] |}.

(** The record of the latency example; [0x1.899999999999ap+3] is the
    float nearest to 12.3. *)
Definition latency_record : record :=
  <["latency_avg_ms" := Py.Float 0x1.899999999999ap+3]>
  (<["latency_50th_ms" := Py.Float 10.0]>
  (<["latency_99th_ms" := Py.Float 30.0]>
  (<["latency_999th_ms" := Py.Float 40.0]> ∅))).

(** What a worker may do, as the thread of node [idx]: log, run commands,
    call collaborators, die, and touch slot [idx - 1] of the two lists. *)
Definition allowed (idx : nat) (a : action) : bool :=
  match a with
  | Log _ _ | Ssh _ _ | External _ _ | Die _ => true
  | AppendStat slot _ | StoreResult slot _ _ => (slot =? idx - 1)%nat
  | Free _ | Spawn _ | Returned _ | Raised _ _ => false
  end.

(** The exception of a call that raised. *)
Definition raised {Base} (o : PerformanceService.outcome Base) : option Py.exn :=
  match o with
  | PerformanceService.Raise e _ => Some e
  | _ => None
  end.

(** The nodes released in a trace, in order. *)
Definition frees (tr : list event) : list Node :=
  omap (fun ev : event => match ev.2 with Free n => Some n | _ => None end) tr.

(** An event that leaves [waited] as it is. *)
Definition neutral (ev : event) : bool :=
  match ev with
  | (Main, Returned Wait) | (Main, Returned Start) => false
  | _ => true
  end.

(** Every release in the trace is done by the main thread, at a point where
    [wait] has returned since the last [start]. *)
Definition frees_ok (tr : list event) : Prop :=
  forall tr1 who n tr2,
    tr = tr1 ++ (who, Free n) :: tr2 ->
    who = Main /\ PerformanceService.waited tr1 = true.

(** The actions of [stop] once the assertion has passed. *)
Definition stop_actions (ns : list Node) : list action :=
  flat_map (fun node => [Log DEBUG "Stopping %s node %d on %s"; Free node]) ns
  ++ [Returned Stop].

(** The invariant behind the release discipline: threads keep to the
    allowed actions, releases in the trace are in order, and the thread list
    is [None] only when [wait] has returned since the last [start]. *)
Definition release_inv {Base} (s : PerformanceService.state Base) : Prop :=
  (forall h th,
     PerformanceService.threads s !! h = Some th ->
     forallb (allowed (th_idx th)) (th_todo th) = true) /\
  frees_ok (PerformanceService.trace s) /\
  (PerformanceService.worker_threads s = PyNone ->
   PerformanceService.waited (PerformanceService.trace s) = true).

(** Schedules: run one step of the thread with handle [h] if it has one
    left, and run the threads in a given order. *)
Definition run_thread {Base} (h : nat) (s : PerformanceService.state Base)
    : PerformanceService.state Base :=
  default s (PerformanceService.thread_step h s).

Definition run_schedule {Base} (hs : list nat) (s : PerformanceService.state Base)
    : PerformanceService.state Base :=
  fold_left (fun s h => run_thread h s) hs s.

(** The state a call leaves behind when it returns or raises. *)
Definition after {Base} (o : PerformanceService.outcome Base)
    (s : PerformanceService.state Base) : PerformanceService.state Base :=
  match o with
  | PerformanceService.Return s' | PerformanceService.Raise _ s' => s'
  | PerformanceService.Block => s
  end.

(** A run on two nodes: the first prints a log line and a summary, the
    second no summary at all.  The base class is taken without state. *)
Definition two_nodes (b : unit) : unit * list Node := (b, [noisy_node; garbled_node]).

Definition no_op (b : unit) : unit := b.

Definition run_started : PerformanceService.state unit :=
  PerformanceService.start two_nodes (PerformanceService.init (Producer sampling_producer) tt).

Definition run_finished : PerformanceService.state unit :=
  run_schedule [0; 1; 0; 1; 0; 1; 0; 1; 0; 0] run_started.

Definition run_waited : PerformanceService.state unit :=
  after (PerformanceService.wait no_op run_finished) run_finished.

Definition run_stopped : PerformanceService.state unit :=
  after (PerformanceService.stop no_op run_waited) run_waited.

(** The invariant of a run between [start] and [wait]: one thread per node,
    thread [h] bound to node [h] under the index [h + 1] and somewhere along
    the actions of its worker; a filled slot holds a record that the worker
    of that node stores; stores in the trace are by the worker of the slot. *)
Definition slots_inv {Base} (svc : service) (ns : list Node)
    (s : PerformanceService.state Base) : Prop :=
  PerformanceService.self s = svc /\
  PerformanceService.nodes s = ns /\
  length (PerformanceService.results s) = length ns /\
  length (PerformanceService.threads s) = length ns /\
  (forall h th,
     PerformanceService.threads s !! h = Some th ->
     th_idx th = S h /\ ns !! h = Some (th_node th) /\
     exists done, worker svc (S h) (th_node th) = done ++ th_todo th) /\
  (forall i r,
     PerformanceService.results s !! i = Some (Some r) ->
     exists node hd, ns !! i = Some node /\
                     In (StoreResult i r hd) (worker svc (S i) node)) /\
  (forall who slot r hd,
     In (who, StoreResult slot r hd) (PerformanceService.trace s) ->
     who = Worker (S slot) /\ slot < length ns).

(** The number of actions the threads still have to do. *)
Definition pending {Base} (s : PerformanceService.state Base) : nat :=
  sum_list (map (fun th => length (th_todo th)) (PerformanceService.threads s)).

(** *** Vocabulary of the further properties *)

(** The two kinds of exception a failed parse of a string can be. *)
Definition parse_error (e : Py.exn) : Prop :=
  e = Py.IndexError \/ e = Py.ValueError.

(** The names of the nine parsed entries and of the three derived ones. *)
Definition parsed_keys : gset string :=
  {[ "records"; "records_per_sec"; "mbps"; "latency_avg_ms"; "latency_max_ms";
     "latency_50th_ms"; "latency_95th_ms"; "latency_99th_ms"; "latency_999th_ms" ]}.

Definition derived_keys : gset string :=
  {[ "total_mb"; "rate_mbps"; "rate_mps" ]}.

(** The actions of the worker of node [idx] in a trace, in order. *)
Definition by_worker (idx : nat) (tr : list event) : list action :=
  omap (fun ev : event =>
          match ev.1 with
          | Worker i => if (i =? idx)%nat then Some ev.2 else None
          | Main => None
          end) tr.

Definition store_of (a : action) : option record :=
  match a with StoreResult _ r _ => Some r | _ => None end.

Definition stat_of (a : action) : option record :=
  match a with AppendStat _ r => Some r | _ => None end.

(** The record that a list of actions leaves in the result slot, and the
    samples it appends. *)
Definition stored (acts : list action) : option record :=
  last (omap store_of acts).

Definition sampled (acts : list action) : list record :=
  omap stat_of acts.

Arguments by_worker idx tr : simpl never.
Arguments stored acts : simpl never.
Arguments sampled acts : simpl never.

Definition to_option {A} (r : Py.result A) : option A :=
  match r with Py.Ok a => Some a | Py.Raise _ => None end.

(** The loop of the end-to-end latency worker as a fold over the stream:
    the dictionary after all lines, or the first exception. *)
Definition latency_fold (results : record) (lines : list string) : Py.result record :=
  fold_left (fun acc line => acc ≫= EndToEndLatencyService.on_line line)
    lines (Py.Ok results).

(** What the output of a node determines: the record of its result slot
    ([None] when the slot stays empty) and its intermediate samples. *)
Definition final_record (svc : service) (node : Node) : option record :=
  match svc with
  | Producer self =>
      to_option (parse_stats
                   (last (ssh_capture node (ProducerPerformanceService.cmd self))))
  | RestProducer self =>
      to_option (RestProducerPerformanceService.parse_last
                   (last (ssh_capture node (RestProducerPerformanceService.cmd self))))
  | Consumer self =>
      to_option (ConsumerPerformanceService.parse_last
                   (last (ssh_capture node (ConsumerPerformanceService.cmd self))))
  | RestConsumer self =>
      to_option (parse_performance_output
                   (last (ssh_capture node (RestConsumerPerformanceService.cmd self))))
  | SchemaRegistry self =>
      to_option (parse_performance_output
                   (last (ssh_capture node (SchemaRegistryPerformanceService.cmd self))))
  | Hadoop _ | Camus _ => None
  | EndToEndLatency self =>
      to_option (latency_fold ∅ (ssh_capture node (EndToEndLatencyService.cmd self)))
  end.

Definition samples (svc : service) (node : Node) : list record :=
  match svc with
  | Producer self =>
      if ProducerPerformanceService.intermediate_stats self then
        omap (fun line => to_option (parse_stats (Some line)))
          (ssh_capture node (ProducerPerformanceService.cmd self))
      else []
  | _ => []
  end.

(** An exception can only be the last action of a thread. *)
Fixpoint die_last (acts : list action) : bool :=
  match acts with
  | [] => true
  | Die _ :: rest => match rest with [] => true | _ => false end
  | _ :: rest => die_last rest
  end.

(** The invariant of a run between [start] and [wait], in full: for each
    thread, what it has done so far (its actions in the trace) followed by
    what it has left is the list of actions of its worker, and its two slots
    hold what the actions done so far stored and appended. *)
Definition exact_inv {Base} (svc : service) (ns : list Node)
    (s : PerformanceService.state Base) : Prop :=
  PerformanceService.nodes s = ns /\
  length (PerformanceService.results s) = length ns /\
  length (PerformanceService.stats s) = length ns /\
  length (PerformanceService.threads s) = length ns /\
  forall h th,
    PerformanceService.threads s !! h = Some th ->
    th_idx th = S h /\ ns !! h = Some (th_node th) /\
    by_worker (S h) (PerformanceService.trace s) ++ th_todo th =
      worker svc (S h) (th_node th) /\
    PerformanceService.results s !! h =
      Some (stored (by_worker (S h) (PerformanceService.trace s))) /\
    PerformanceService.stats s !! h =
      Some (sampled (by_worker (S h) (PerformanceService.trace s))).

(** The two classes whose workers only log. *)
Definition log_only (svc : service) : bool :=
  match svc with Hadoop _ | Camus _ => true | _ => false end.

(** A line that the end-to-end latency worker reads. *)
Definition is_marker (line : string) : bool :=
  Py.startswith line "Avg latency:" || Py.startswith line "Percentiles".

(** The settings as they appear at the end of a command. *)
Definition settings_text (settings : Settings) : string :=
  foldr (fun (kv : string * string) text => (" " +:+ kv.1 +:+ "=" +:+ kv.2) +:+ text)
    EmptyString settings.

(** A node whose commands print nothing, and a consumer service. *)
Definition quiet_node : Node :=
  {| hostname := "worker3"; ssh_capture := fun _ => [] |}.

Definition consumer_service : ConsumerPerformanceService.t :=
  ConsumerPerformanceService.__init__
    {| bootstrap_servers := "k1:9092"; zk_connect_setting := "z1:2181" |}
    "test" 1000 (-1) 1 [].

(** The sample run, stopped where the first worker is about to store its
    record. *)
Definition run_before_store : PerformanceService.state unit :=
  run_schedule [0; 0; 0; 0; 0] run_started.

(** The nine entries of the summary line of the specification. *)
Definition summary_parsed : record :=
  <["records" := Py.Int 1000]>
  (<["records_per_sec" := Py.Float 500.0]>
  (<["mbps" := Py.Float 2.5]>
  (<["latency_avg_ms" := Py.Float 10.0]>
  (<["latency_max_ms" := Py.Float 50.0]>
  (<["latency_50th_ms" := Py.Float 8.0]>
  (<["latency_95th_ms" := Py.Float 20.0]>
  (<["latency_99th_ms" := Py.Float 30.0]>
  (<["latency_999th_ms" := Py.Float 40.0]> ∅)))))))).

(** A Hadoop run on the two sample nodes. *)
Definition hadoop_service : service :=
  Hadoop (HadoopPerformanceService.__init__ {| is_HadoopV1Service := true |} []).

Definition hadoop_run_finished : PerformanceService.state unit :=
  run_schedule [0; 1; 0; 1; 0; 1; 0; 1; 0; 1; 0]
    (PerformanceService.start two_nodes (PerformanceService.init hadoop_service tt)).

Definition hadoop_run_waited : PerformanceService.state unit :=
  after (PerformanceService.wait no_op hadoop_run_finished) hadoop_run_finished.

(** The twelve entries that the shared parser returns on that line. *)
Definition summary_shared : record :=
  <["total_mb" := Py.Float 5.0]>
  (<["rate_mbps" := Py.Float 2.5]>
  (<["rate_mps" := Py.Float 500.0]> summary_parsed)).

(** * Properties *)

(** ** The runtime fragment *)

Example split_sep_keeps_empty_fields :
  Py.split_sep "," "a,b,,c" = ["a"; "b"; EmptyString; "c"].
Proof. reflexivity. Qed.

Example split_drops_whitespace :
  Py.split "  500.0 records/sec (2.5 MB/sec)" = ["500.0"; "records/sec"; "(2.5"; "MB/sec)"].
Proof. reflexivity. Qed.

Example int_accepts_sign_and_spaces : Py.int " -12 " = Py.Ok (-12)%Z.
Proof. reflexivity. Qed.

Example int_rejects_words : Py.int "records" = Py.Raise Py.ValueError.
Proof. reflexivity. Qed.

Example float_reads_exponents : Py.float "-.5E+1" = Py.Ok (-5)%float.
Proof. vm_compute. reflexivity. Qed.

Example float_rounds_to_nearest_even :
  Py.float "9007199254740993" = Py.Ok 9007199254740992%float.
Proof. vm_compute. reflexivity. Qed.

Example float_rejects_units : Py.float "10.0ms" = Py.Raise Py.ValueError.
Proof. vm_compute. reflexivity. Qed.

Example format_d_negative : Py.format_d (-100) = "-100".
Proof. vm_compute. reflexivity. Qed.

Example float_keeps_the_sign : Py.float "-1e3" = Py.Ok (-1000)%float.
Proof. vm_compute. reflexivity. Qed.

Example float_of_int_negative : Py.float_of_int (-3) = Py.Ok (-3)%float.
Proof. vm_compute. reflexivity. Qed.

Example float_overflows_to_infinity : Py.float "1e400" = Py.Ok infinity.
Proof. vm_compute. reflexivity. Qed.

Example float_of_int_overflow : Py.float_of_int (2 ^ 1024) = Py.Raise Py.OverflowError.
Proof. vm_compute. reflexivity. Qed.

Example division_by_zero_rate :
  Py.int_div_float 1000 0%float = Py.Raise Py.ZeroDivisionError.
Proof. vm_compute. reflexivity. Qed.

Lemma bind_Raise {A B} (e : Py.exn) (k : A -> Py.result B) :
  (Py.Raise e ≫= k) = Py.Raise e.
Proof. reflexivity. Qed.

Lemma bind_Ok {A B} (a : A) (k : A -> Py.result B) :
  (Py.Ok a ≫= k) = k a.
Proof. reflexivity. Qed.

Lemma index_short {A} (l : list A) (k : nat) :
  length l <= k -> Py.index l k = Py.Raise Py.IndexError.
Proof.
  intros Hlen. unfold Py.index.
  by rewrite (lookup_ge_None_2 l k Hlen).
Qed.

Lemma leading_token_short (parts : list string) (k : nat) :
  length parts <= k -> leading_token parts k = Py.Raise Py.IndexError.
Proof.
  intros Hlen. unfold leading_token. by rewrite index_short.
Qed.

(** ** The summary parsers *)

(** Destruct the first bound computation of the goal; a raise ends it. *)
Ltac step_bind :=
  match goal with
  | |- exists e, (?m ≫= _) = Py.Raise e =>
      let E := fresh "E" in
      destruct m eqn:E;
      [ rewrite bind_Ok | eexists; apply bind_Raise ]
  end.

Lemma summary_dict_short (parts : list string) :
  length parts < 8 -> exists e, summary_dict parts = Py.Raise e.
Proof.
  intros Hlen. unfold summary_dict.
  do 8 step_bind.
  rewrite leading_token_short by lia.
  eexists. reflexivity.
Qed.

(** The dictionary display stores [mbps] and [records_per_sec] as floats and
    [records] as an integer: the derived entries never meet another type. *)
Lemma summary_dict_types (parts : list string) (results : record) :
  summary_dict parts = Py.Ok results ->
  exists mbps records records_per_sec,
    results !! "mbps" = Some (Py.Float mbps) /\
    results !! "records" = Some (Py.Int records) /\
    results !! "records_per_sec" = Some (Py.Float records_per_sec).
Proof.
  unfold summary_dict. intros Hok.
  repeat match type of Hok with
         | (?m ≫= _) = Py.Ok _ =>
             destruct m; [rewrite bind_Ok in Hok | discriminate Hok]
         end.
  injection Hok as <-.
  do 3 eexists. repeat split; reflexivity.
Qed.

(** C4: on the summary line of the specification the shared parser
    [parse_performance_output] returns the nine parsed entries
    (records=1000, records_per_sec=500.0, mbps=2.5, the six latencies 10.0,
    50.0, 8.0, 20.0, 30.0, 40.0) and the three derived ones, total_mb=5.0,
    rate_mbps=2.5 and rate_mps=500.0. *)
Theorem parse_performance_output_summary_line :
  parse_performance_output (Some summary_line) =
  Py.Ok (<["records" := Py.Int 1000]>
        (<["records_per_sec" := Py.Float 500.0]>
        (<["mbps" := Py.Float 2.5]>
        (<["latency_avg_ms" := Py.Float 10.0]>
        (<["latency_max_ms" := Py.Float 50.0]>
        (<["latency_50th_ms" := Py.Float 8.0]>
        (<["latency_95th_ms" := Py.Float 20.0]>
        (<["latency_99th_ms" := Py.Float 30.0]>
        (<["latency_999th_ms" := Py.Float 40.0]>
        (<["total_mb" := Py.Float 5.0]>
        (<["rate_mbps" := Py.Float 2.5]>
        (<["rate_mps" := Py.Float 500.0]> ∅)))))))))))).
Proof. vm_compute. reflexivity. Qed.

(** C7: a line with fewer than eight comma-separated fields makes both
    summary parsers raise; no record is returned, complete or not. *)
Theorem short_line_is_parse_failure (line : string) :
  length (Py.split_sep "," line) < 8 ->
  (exists e, parse_performance_output (Some line) = Py.Raise e) /\
  (exists e, parse_stats (Some line) = Py.Raise e).
Proof.
  intros Hlen.
  destruct (summary_dict_short _ Hlen) as [e He].
  split; exists e.
  - unfold parse_performance_output. cbn [Py.split_on].
    rewrite bind_Ok, He. reflexivity.
  - unfold parse_stats. cbn [Py.split_on].
    rewrite bind_Ok. exact He.
Qed.

Lemma short_line_is_parse_failure_witness :
  (exists e, parse_performance_output (Some "1000 records, 500.0 records/sec (2.5 MB/sec)") = Py.Raise e) /\
  (exists e, parse_stats (Some "1000 records, 500.0 records/sec (2.5 MB/sec)") = Py.Raise e).
Proof.
  apply (short_line_is_parse_failure "1000 records, 500.0 records/sec (2.5 MB/sec)").
  vm_compute. lia.
Defined.

(** ** The stream loop *)

Lemma consume_snoc (body : string -> list action) (lines : list string) (line : string) :
  consume body (lines ++ [line]) = (Some line, (consume body lines).2 ++ body line).
Proof. unfold consume. rewrite fold_left_app. reflexivity. Qed.

Lemma consume_spec (body : string -> list action) (lines : list string) :
  consume body lines = (last lines, flat_map body lines).
Proof.
  induction lines as [|line lines IH] using rev_ind; [reflexivity|].
  rewrite consume_snoc, IH, last_snoc, flat_map_app. cbn.
  by rewrite app_nil_r.
Qed.

(** ** Commands *)

(** C3: in the REST producer a requested throughput [t <= 0] becomes the
    argument [-B], [B] the batch size, and in the REST consumer it becomes
    [-100]; a throughput [t > 0] is passed on unchanged.  The value is the
    last argument of the command, before the settings. *)
Theorem negative_throughput_translation (t B : Z) :
  ((t <= 0)%Z ->
   (forall rest topic n size settings,
      let self := RestProducerPerformanceService.__init__ rest topic n size B t settings in
      RestProducerPerformanceService.throughput (RestProducerPerformanceService.args self) = (- B)%Z /\
      RestProducerPerformanceService.cmd self =
        add_settings
          ("/opt/kafka-rest/bin/kafka-rest-run-class io.confluent.kafkarest.tools.ProducerPerformance '"
           +:+ rest_url rest +:+ "' " +:+ topic +:+ " " +:+ Py.format_d n +:+ " "
           +:+ Py.format_d size +:+ " " +:+ Py.format_d B +:+ " " +:+ Py.format_d (- B))
          settings) /\
   (forall rest topic n settings,
      let self := RestConsumerPerformanceService.__init__ rest topic n t settings in
      RestConsumerPerformanceService.throughput (RestConsumerPerformanceService.args self) = (-100)%Z /\
      RestConsumerPerformanceService.cmd self =
        add_settings
          ("/opt/kafka-rest/bin/kafka-rest-run-class io.confluent.kafkarest.tools.ConsumerPerformance '"
           +:+ rest_url rest +:+ "' " +:+ topic +:+ " " +:+ Py.format_d n +:+ " -100")
          settings)) /\
  ((0 < t)%Z ->
   (forall rest topic n size settings,
      let self := RestProducerPerformanceService.__init__ rest topic n size B t settings in
      RestProducerPerformanceService.throughput (RestProducerPerformanceService.args self) = t /\
      RestProducerPerformanceService.cmd self =
        add_settings
          ("/opt/kafka-rest/bin/kafka-rest-run-class io.confluent.kafkarest.tools.ProducerPerformance '"
           +:+ rest_url rest +:+ "' " +:+ topic +:+ " " +:+ Py.format_d n +:+ " "
           +:+ Py.format_d size +:+ " " +:+ Py.format_d B +:+ " " +:+ Py.format_d t)
          settings) /\
   (forall rest topic n settings,
      let self := RestConsumerPerformanceService.__init__ rest topic n t settings in
      RestConsumerPerformanceService.throughput (RestConsumerPerformanceService.args self) = t /\
      RestConsumerPerformanceService.cmd self =
        add_settings
          ("/opt/kafka-rest/bin/kafka-rest-run-class io.confluent.kafkarest.tools.ConsumerPerformance '"
           +:+ rest_url rest +:+ "' " +:+ topic +:+ " " +:+ Py.format_d n +:+ " "
           +:+ Py.format_d t)
          settings)).
Proof.
  split; intros Ht.
  - assert ((0 <? t)%Z = false) as E by lia.
    split; intros; subst self;
      unfold RestProducerPerformanceService.cmd, RestConsumerPerformanceService.cmd;
      cbn; rewrite E; split; reflexivity.
  - assert ((0 <? t)%Z = true) as E by lia.
    split; intros; subst self;
      unfold RestProducerPerformanceService.cmd, RestConsumerPerformanceService.cmd;
      cbn; rewrite E; split; reflexivity.
Qed.

Lemma negative_throughput_translation_witness :
  RestProducerPerformanceService.cmd
    (RestProducerPerformanceService.__init__ {| rest_url := "http://r:8082" |} "t" 10 100 7 (-1) [("a", "b")])
  = "/opt/kafka-rest/bin/kafka-rest-run-class io.confluent.kafkarest.tools.ProducerPerformance 'http://r:8082' t 10 100 7 -7 a=b"
  /\
  RestConsumerPerformanceService.cmd
    (RestConsumerPerformanceService.__init__ {| rest_url := "http://r:8082" |} "t" 10 0 [])
  = "/opt/kafka-rest/bin/kafka-rest-run-class io.confluent.kafkarest.tools.ConsumerPerformance 'http://r:8082' t 10 -100"
  /\
  RestProducerPerformanceService.throughput
    (RestProducerPerformanceService.args
       (RestProducerPerformanceService.__init__ {| rest_url := "http://r:8082" |} "t" 10 100 7 5 []))
  = 5%Z.
Proof.
  split; [|split].
  - destruct (negative_throughput_translation (-1) 7) as [Hneg _].
    destruct (Hneg ltac:(lia)) as [Hp _].
    destruct (Hp {| rest_url := "http://r:8082" |} "t" 10%Z 100%Z [("a", "b")]) as [_ Hcmd].
    rewrite Hcmd. vm_compute. reflexivity.
  - destruct (negative_throughput_translation 0 7) as [Hneg _].
    destruct (Hneg ltac:(lia)) as [_ Hc].
    destruct (Hc {| rest_url := "http://r:8082" |} "t" 10%Z []) as [_ Hcmd].
    rewrite Hcmd. vm_compute. reflexivity.
  - destruct (negative_throughput_translation 5 7) as [_ Hpos].
    destruct (Hpos ltac:(lia)) as [Hp _].
    destruct (Hp {| rest_url := "http://r:8082" |} "t" 10%Z 100%Z []) as [Harg _].
    exact Harg.
Defined.

(** C10: the command of the consumer service does not depend on the
    throughput and threads it was constructed with, and neither does what its
    worker does. *)
Theorem consumer_command_ignores_throughput_and_threads
    (kafka : KafkaService) (topic : string) (num_records : Z) (settings : Settings)
    (throughput1 threads1 throughput2 threads2 : Z) :
  ConsumerPerformanceService.cmd
    (ConsumerPerformanceService.__init__ kafka topic num_records throughput1 threads1 settings) =
  ConsumerPerformanceService.cmd
    (ConsumerPerformanceService.__init__ kafka topic num_records throughput2 threads2 settings)
  /\
  forall idx node,
    ConsumerPerformanceService._worker
      (ConsumerPerformanceService.__init__ kafka topic num_records throughput1 threads1 settings)
      idx node =
    ConsumerPerformanceService._worker
      (ConsumerPerformanceService.__init__ kafka topic num_records throughput2 threads2 settings)
      idx node.
Proof. split; reflexivity. Qed.

(** ** Workers and parse failures *)

Lemma producer_on_line_never_dies self idx line :
  forallb (fun a => negb (is_Die a)) (ProducerPerformanceService.on_line self idx line) = true.
Proof.
  unfold ProducerPerformanceService.on_line.
  destruct (ProducerPerformanceService.intermediate_stats self); [|reflexivity].
  destruct (parse_stats (Some line)); reflexivity.
Qed.

(** The producer worker contains every failure: no exception leaves it. *)
Lemma producer_worker_never_dies self idx node :
  forallb (fun a => negb (is_Die a)) (ProducerPerformanceService._worker self idx node) = true.
Proof.
  unfold ProducerPerformanceService._worker.
  rewrite consume_spec. cbn [forallb app negb is_Die andb].
  rewrite forallb_app. apply andb_true_iff. split.
  - apply forallb_forall. intros a Ha.
    apply in_flat_map in Ha as (line & _ & Ha).
    pose proof (producer_on_line_never_dies self idx line) as Hl.
    rewrite forallb_forall in Hl. auto.
  - unfold ProducerPerformanceService.on_end.
    destruct (parse_stats _); reflexivity.
Qed.

(** C8: in the producer worker with intermediate sampling enabled, a line
    that [parse_stats] rejects adds no sample and raises nothing: the loop
    body only logs it, the line becomes the value of [last], and the lines
    after it are consumed as usual.  When it is the last line of the stream,
    it is the one the final parse is tried on. *)
Theorem intermediate_parse_failure_is_swallowed
    (self : ProducerPerformanceService.t) (idx : nat) (line : string) (e : Py.exn) :
  ProducerPerformanceService.intermediate_stats self = true ->
  parse_stats (Some line) = Py.Raise e ->
  ProducerPerformanceService.on_line self idx line =
    [Log DEBUG "Producer performance %d: %s"] /\
  (forall before,
     consume (ProducerPerformanceService.on_line self idx) (before ++ [line]) =
     (Some line,
      (consume (ProducerPerformanceService.on_line self idx) before).2
      ++ [Log DEBUG "Producer performance %d: %s"])) /\
  (forall node before after,
     ssh_capture node (ProducerPerformanceService.cmd self) = before ++ line :: after ->
     ProducerPerformanceService._worker self idx node =
       [Log DEBUG "Producer performance %d command: %s";
        Ssh node (ProducerPerformanceService.cmd self)]
       ++ flat_map (ProducerPerformanceService.on_line self idx) before
       ++ [Log DEBUG "Producer performance %d: %s"]
       ++ flat_map (ProducerPerformanceService.on_line self idx) after
       ++ ProducerPerformanceService.on_end idx (last (line :: after))) /\
  ProducerPerformanceService.on_end idx (Some line) = [Log ERROR "Bad last line: %s"].
Proof.
  intros Hon Hfail.
  assert (ProducerPerformanceService.on_line self idx line =
          [Log DEBUG "Producer performance %d: %s"]) as Hline.
  { unfold ProducerPerformanceService.on_line. by rewrite Hon, Hfail. }
  split; [exact Hline|]. split; [|split].
  - intros before. by rewrite consume_snoc, Hline.
  - intros node before after Hstream.
    unfold ProducerPerformanceService._worker.
    rewrite Hstream, consume_spec.
    rewrite flat_map_app. cbn [flat_map]. rewrite Hline.
    rewrite last_app. cbn [last].
    replace (match last (line :: after) with
             | Some y => Some y
             | None => last before
             end) with (last (line :: after)).
    2:{ destruct (last (line :: after)) eqn:E; [reflexivity|].
        by apply last_None in E. }
    cbn [app]. by rewrite <- !app_assoc.
  - unfold ProducerPerformanceService.on_end. by rewrite Hfail.
Qed.

Lemma intermediate_parse_failure_is_swallowed_witness :
  ProducerPerformanceService.on_line sampling_producer 1 "SLF4J: Failed to load class" =
    [Log DEBUG "Producer performance %d: %s"].
Proof.
  apply (intermediate_parse_failure_is_swallowed sampling_producer 1
           "SLF4J: Failed to load class" Py.ValueError).
  - reflexivity.
  - vm_compute. reflexivity.
Defined.

(** C2: when the last line is not a summary, the producer worker logs an
    error and ends normally, but the REST producer worker, which parses the
    last line outside any [try], ends with the exception of the parse: it
    logs no error of its own and the [ValueError] leaves [_worker]. *)
Theorem rest_producer_propagates_parse_failure :
  ProducerPerformanceService._worker plain_producer 1 garbled_node =
    [Log DEBUG "Producer performance %d command: %s";
     Ssh garbled_node (ProducerPerformanceService.cmd plain_producer);
     Log DEBUG "Producer performance %d: %s";
     Log ERROR "Bad last line: %s"] /\
  RestProducerPerformanceService._worker rest_producer 1 garbled_node =
    [Log DEBUG "REST producer performance %d command: %s";
     Ssh garbled_node (RestProducerPerformanceService.cmd rest_producer);
     Log DEBUG "REST producer performance %d: %s";
     Die Py.ValueError].
Proof. split; vm_compute; reflexivity. Qed.

(** The same holds for the other workers that parse outside a [try]: a
    failure of the parse is the exception that ends the thread. *)
Lemma unguarded_workers_die_on_parse_failure (node : Node) (idx : nat) (e : Py.exn) :
  (forall self,
     RestProducerPerformanceService.parse_last
       (last (ssh_capture node (RestProducerPerformanceService.cmd self))) = Py.Raise e ->
     last (RestProducerPerformanceService._worker self idx node) = Some (Die e)) /\
  (forall self,
     ConsumerPerformanceService.parse_last
       (last (ssh_capture node (ConsumerPerformanceService.cmd self))) = Py.Raise e ->
     last (ConsumerPerformanceService._worker self idx node) = Some (Die e)) /\
  (forall self,
     parse_performance_output
       (last (ssh_capture node (RestConsumerPerformanceService.cmd self))) = Py.Raise e ->
     last (RestConsumerPerformanceService._worker self idx node) = Some (Die e)) /\
  (forall self,
     parse_performance_output
       (last (ssh_capture node (SchemaRegistryPerformanceService.cmd self))) = Py.Raise e ->
     last (SchemaRegistryPerformanceService._worker self idx node) = Some (Die e)).
Proof.
  repeat split; intros self Hfail.
  - unfold RestProducerPerformanceService._worker.
    rewrite consume_spec, Hfail, !app_assoc. apply last_snoc.
  - unfold ConsumerPerformanceService._worker.
    rewrite consume_spec, Hfail, !app_assoc. apply last_snoc.
  - unfold RestConsumerPerformanceService._worker.
    rewrite consume_spec, Hfail, !app_assoc. apply last_snoc.
  - unfold SchemaRegistryPerformanceService._worker.
    rewrite consume_spec, Hfail, !app_assoc. apply last_snoc.
Qed.

(** ** End-to-end latency *)

(** On the two lines of the specification the worker stores nothing: the
    token ["10.0ms,"] loses its comma only, and [float("10.0ms")] raises. *)
Lemma latency_lines_with_unit_raise :
  EndToEndLatencyService._worker latency_service 1 (latency_node percentiles_with_unit) =
    [Log DEBUG "End-to-end latency %d command: %s";
     Ssh (latency_node percentiles_with_unit) (EndToEndLatencyService.cmd latency_service);
     Log DEBUG "End-to-end latency %d: %s";
     Log DEBUG "End-to-end latency %d: %s";
     Die Py.ValueError]
  /\ ~ In (StoreResult 0 latency_record None)
         (EndToEndLatencyService._worker latency_service 1 (latency_node percentiles_with_unit)).
Proof.
  assert (EndToEndLatencyService._worker latency_service 1 (latency_node percentiles_with_unit) =
    [Log DEBUG "End-to-end latency %d command: %s";
     Ssh (latency_node percentiles_with_unit) (EndToEndLatencyService.cmd latency_service);
     Log DEBUG "End-to-end latency %d: %s";
     Log DEBUG "End-to-end latency %d: %s";
     Die Py.ValueError]) as E by (vm_compute; reflexivity).
  split; [exact E|]. rewrite E. cbn.
  intros [H|[H|[H|[H|[H|[]]]]]]; discriminate H.
Qed.

Lemma on_line_with_unit_raises (results : record) :
  EndToEndLatencyService.on_line percentiles_with_unit results = Py.Raise Py.ValueError.
Proof. vm_compute. reflexivity. Qed.

Lemma loop_with_unit_stores_nothing (slot : nat) (before after : list string) :
  forall results,
    forallb (fun a => negb (is_StoreResult a))
      (EndToEndLatencyService.loop slot results (before ++ percentiles_with_unit :: after)) = true.
Proof.
  induction before as [|line before IH]; intros results.
  - cbn [app EndToEndLatencyService.loop].
    rewrite on_line_with_unit_raises. reflexivity.
  - cbn [app EndToEndLatencyService.loop].
    destruct (EndToEndLatencyService.on_line line results) as [results'|e].
    + cbn [forallb is_StoreResult negb andb]. apply IH.
    + reflexivity.
Qed.

(** C9, as the code has it: on the lines ["Avg latency: 12.3 ms"] and
    ["Percentiles: 50th = 10.0, 99th = 30.0, 99.9th = 40.0"], where the
    percentile values are followed by a comma only, the worker stores the
    record latency_avg_ms=12.3, latency_50th_ms=10.0, latency_99th_ms=30.0,
    latency_999th_ms=40.0 in its slot; on a stream with the Percentiles line
    of the specification, whose values carry the suffix [ms], it stores no
    record. *)
Theorem end_to_end_latency_extraction :
  EndToEndLatencyService._worker latency_service 1 (latency_node percentiles_bare) =
    [Log DEBUG "End-to-end latency %d command: %s";
     Ssh (latency_node percentiles_bare) (EndToEndLatencyService.cmd latency_service);
     Log DEBUG "End-to-end latency %d: %s";
     Log DEBUG "End-to-end latency %d: %s";
     StoreResult 0 latency_record None]
  /\ Py.float "12.3" = Py.Ok 0x1.899999999999ap+3%float
  /\ forall self idx node before after,
       ssh_capture node (EndToEndLatencyService.cmd self) =
         before ++ percentiles_with_unit :: after ->
       forallb (fun a => negb (is_StoreResult a))
         (EndToEndLatencyService._worker self idx node) = true.
Proof.
  split; [vm_compute; reflexivity|].
  split; [vm_compute; reflexivity|].
  intros self idx node before after Hstream.
  unfold EndToEndLatencyService._worker. rewrite Hstream.
  cbn [app forallb is_StoreResult negb andb].
  apply loop_with_unit_stores_nothing.
Qed.

Lemma end_to_end_latency_extraction_witness :
  forallb (fun a => negb (is_StoreResult a))
    (EndToEndLatencyService._worker latency_service 1 (latency_node percentiles_with_unit)) = true.
Proof.
  destruct end_to_end_latency_extraction as (_ & _ & Hnone).
  apply (Hnone latency_service 1 (latency_node percentiles_with_unit)
           ["Avg latency: 12.3 ms"] []).
  reflexivity.
Defined.

(** ** The life cycle *)

Lemma forallb_flat_map {A B} (p : B -> bool) (f : A -> list B) (l : list A) :
  (forall x, forallb p (f x) = true) -> forallb p (flat_map f l) = true.
Proof.
  intros Hf. induction l as [|x l IH]; [reflexivity|].
  cbn. by rewrite forallb_app, Hf, IH.
Qed.

Lemma store_or_die_allowed idx parsed :
  forallb (allowed idx) (store_or_die (idx - 1) parsed) = true.
Proof.
  destruct parsed; cbn; [|reflexivity].
  by rewrite Nat.eqb_refl.
Qed.

Lemma latency_loop_allowed idx lines :
  forall results,
    forallb (allowed idx) (EndToEndLatencyService.loop (idx - 1) results lines) = true.
Proof.
  induction lines as [|line lines IH]; intros results; cbn.
  - by rewrite Nat.eqb_refl.
  - destruct (EndToEndLatencyService.on_line line results); [apply IH|reflexivity].
Qed.

(** Every worker keeps to its own slot and releases nothing. *)
Lemma worker_allowed (svc : service) (idx : nat) (node : Node) :
  forallb (allowed idx) (worker svc idx node) = true.
Proof.
  destruct svc as [self|self|self|self|self|self|self|self]; cbn [worker].
  - unfold ProducerPerformanceService._worker. rewrite consume_spec.
    cbn [app forallb allowed andb]. rewrite forallb_app.
    apply andb_true_iff. split.
    + apply forallb_flat_map. intros line.
      unfold ProducerPerformanceService.on_line.
      destruct (ProducerPerformanceService.intermediate_stats self); [|reflexivity].
      destruct (parse_stats (Some line)); cbn; [|reflexivity].
      by rewrite Nat.eqb_refl.
    + unfold ProducerPerformanceService.on_end.
      destruct (parse_stats _); cbn; [|reflexivity].
      by rewrite Nat.eqb_refl.
  - unfold RestProducerPerformanceService._worker. rewrite consume_spec.
    cbn [app forallb allowed andb]. rewrite forallb_app, store_or_die_allowed.
    rewrite forallb_flat_map; [reflexivity|done].
  - unfold ConsumerPerformanceService._worker. rewrite consume_spec.
    cbn [app forallb allowed andb]. rewrite forallb_app, store_or_die_allowed.
    rewrite forallb_flat_map; [reflexivity|done].
  - unfold RestConsumerPerformanceService._worker. rewrite consume_spec.
    cbn [app forallb allowed andb]. rewrite forallb_app, store_or_die_allowed.
    rewrite forallb_flat_map; [reflexivity|done].
  - unfold SchemaRegistryPerformanceService._worker. rewrite consume_spec.
    cbn [app forallb allowed andb]. rewrite forallb_app, store_or_die_allowed.
    rewrite forallb_flat_map; [reflexivity|done].
  - unfold HadoopPerformanceService._worker.
    cbn [app forallb allowed andb].
    apply forallb_forall. intros a Ha. apply in_map_iff in Ha as (? & <- & _). reflexivity.
  - unfold CamusPerformanceService._worker, CamusPerformanceService.create_camus_props.
    assert (forall (f : string -> action) (l : list string),
              (forall x, allowed idx (f x) = true) ->
              forallb (allowed idx) (map f l) = true) as Hmap.
    { intros f l Hf. apply forallb_forall. intros a Ha.
      apply in_map_iff in Ha as (x & <- & _). apply Hf. }
    rewrite !forallb_app. cbn [forallb allowed andb].
    rewrite !Hmap by done. reflexivity.
  - unfold EndToEndLatencyService._worker.
    cbn [app forallb allowed andb]. apply latency_loop_allowed.
Qed.

Section LifeCycle.

Context {Base : Type}.
Variable Service_start : Base -> Base * list Node.
Variable Service_wait : Base -> Base.
Variable Service_stop : Base -> Base.

Import PerformanceService.

Local Abbreviation state := (PerformanceService.state Base).
Local Abbreviation start := (PerformanceService.start Service_start).
Local Abbreviation wait := (PerformanceService.wait Service_wait).
Local Abbreviation stop := (PerformanceService.stop Service_stop).
Local Abbreviation step :=
  (PerformanceService.step Service_start Service_wait Service_stop).
Local Abbreviation reachable :=
  (PerformanceService.reachable Service_start Service_wait Service_stop).
Local Abbreviation thread_step := PerformanceService.thread_step.
Local Abbreviation thread_steps := PerformanceService.thread_steps.
Local Abbreviation waited := PerformanceService.waited.
Local Abbreviation waited_from := PerformanceService.waited_from.

(** What one step of a thread changes. *)
Lemma thread_step_spec (h : nat) (s s' : state) :
  thread_step h s = Some s' ->
  exists th a rest todo' new,
    threads s !! h = Some th /\ th_todo th = a :: rest /\
    self s' = self s /\ base s' = base s /\ nodes s' = nodes s /\
    worker_threads s' = worker_threads s /\
    threads s' =
      alter (fun th => {| th_idx := th_idx th; th_node := th_node th;
                          th_todo := todo' |}) h (threads s) /\
    (todo' = rest \/ todo' = []) /\
    trace s' = trace s ++ map (pair (Worker (th_idx th))) new /\
    (new = [a] \/ new = [] \/ (exists fmt, new = [Log ERROR fmt]) \/
     new = [Die Py.IndexError]) /\
    length (results s') = length (results s) /\
    length (stats s') = length (stats s) /\
    (results s' = results s \/
     exists slot r hd, a = StoreResult slot r hd /\ slot < length (results s) /\
                       results s' = <[slot := Some r]> (results s)).
Proof.
  unfold thread_step. intros Hstep.
  destruct (threads s !! h) as [th|] eqn:Hth; [|discriminate].
  destruct (th_todo th) as [|a rest] eqn:Htodo; [discriminate|].
  injection Hstep as <-.
  exists th, a, rest.
  destruct a as [lvl fmt|node cmd|name node|node|slot r|slot r hd|e|idx|m|m e];
    try (match goal with
         | H : th_todo th = ?a :: rest |- _ => exists rest, [a]
         end; cbn; intuition eauto; fail).
  - destruct (slot <? length (stats s))%nat eqn:E.
    + exists rest, [AppendStat slot r]. cbn.
      rewrite length_alter. intuition eauto.
    + exists rest, []. cbn. rewrite ?app_nil_r. intuition eauto.
  - destruct (slot <? length (results s))%nat eqn:E.
    + exists rest, [StoreResult slot r hd]. cbn.
      rewrite length_insert. apply Nat.ltb_lt in E.
      repeat split; eauto 10.
    + destruct hd as [fmt|].
      * exists rest, [Log ERROR fmt]. cbn. intuition eauto.
      * exists [], [Die Py.IndexError]. cbn. intuition eauto.
  - exists [], [Die e]. cbn. intuition eauto.
Qed.

Lemma waited_from_app (w : bool) (tr new : list event) :
  waited_from w (tr ++ new) = waited_from (waited_from w tr) new.
Proof. unfold waited_from. apply fold_left_app. Qed.

Lemma waited_from_neutral (w : bool) (new : list event) :
  forallb neutral new = true -> waited_from w new = w.
Proof.
  unfold waited_from. revert w.
  induction new as [|[who a] new IH]; intros w Hn; [reflexivity|].
  cbn in Hn. apply andb_true_iff in Hn as [Ha Hn].
  cbn [fold_left]. rewrite IH by done.
  destruct who; [|reflexivity].
  destruct a as [| | | | | | | |[]|]; try reflexivity; discriminate Ha.
Qed.

Lemma worker_events_neutral (idx : nat) (new : list action) :
  forallb neutral (map (pair (Worker idx)) new) = true.
Proof. induction new; [reflexivity|]. cbn. exact IHnew. Qed.

Lemma frees_ok_app (tr new : list event) :
  frees_ok tr ->
  (forall tr1 who n tr2,
     new = tr1 ++ (who, Free n) :: tr2 ->
     who = Main /\ waited (tr ++ tr1) = true) ->
  frees_ok (tr ++ new).
Proof.
  intros Htr Hnew t1 who n t2 Heq.
  apply app_eq_app in Heq as [l [[-> Hl]|[-> Hl]]].
  - destruct l as [|x l].
    + cbn in Hl.
      specialize (Hnew [] who n t2 (eq_sym Hl)). by rewrite !app_nil_r in Hnew.
    + cbn in Hl. injection Hl as <- ->.
      by apply (Htr t1 who n l).
  - by apply (Hnew l who n t2).
Qed.

Lemma frees_ok_app_free_less (tr new : list event) :
  frees_ok tr ->
  (forall who n, ~ In (who, Free n) new) ->
  frees_ok (tr ++ new).
Proof.
  intros Htr Hnew. apply frees_ok_app; [done|].
  intros tr1 who n tr2 ->. exfalso. apply (Hnew who n).
  apply in_or_app. right. by left.
Qed.

Lemma stop_actions_neutral (ns : list Node) :
  forallb neutral (map (pair Main) (stop_actions ns)) = true.
Proof.
  unfold stop_actions. rewrite map_app, forallb_app. cbn.
  rewrite andb_true_r. induction ns; [reflexivity|]. cbn. exact IHns.
Qed.

Lemma frees_stop_actions (ns : list Node) :
  frees (map (pair Main) (stop_actions ns)) = ns.
Proof.
  unfold stop_actions, frees. rewrite map_app, omap_app. cbn.
  rewrite app_nil_r. induction ns as [|n ns IH]; [reflexivity|].
  cbn. by rewrite IH.
Qed.

Lemma frees_ok_stop (tr : list event) (ns : list Node) :
  frees_ok tr -> waited tr = true ->
  frees_ok (tr ++ map (pair Main) (stop_actions ns)).
Proof.
  intros Htr Hw. apply frees_ok_app; [done|].
  intros tr1 who n tr2 Heq. split.
  - assert (In (who, Free n) (map (pair Main) (stop_actions ns))) as Hin.
    { rewrite Heq. apply in_or_app. right. by left. }
    apply in_map_iff in Hin as (a & Ha & _). by injection Ha as <- _.
  - unfold waited. rewrite waited_from_app. fold (waited tr). rewrite Hw.
    apply waited_from_neutral.
    pose proof (stop_actions_neutral ns) as Hn.
    rewrite Heq, forallb_app in Hn. by apply andb_true_iff in Hn as [Hn _].
Qed.

Lemma start_actions_free_less (k : nat) who n :
  ~ In (who, Free n)
      (map (pair Main)
         (flat_map (fun i => [Log INFO "Running %s node %d on %s"; Spawn (S i)]) (seq 0 k)
          ++ [Returned Start])).
Proof.
  intros Hin. apply in_map_iff in Hin as (a & Ha & Hin).
  injection Ha as _ ->.
  apply in_app_or in Hin as [Hin|[Hin|[]]]; [|discriminate].
  apply in_flat_map in Hin as (i & _ & [Hin|[Hin|[]]]); discriminate.
Qed.

Lemma release_inv_init svc (b : Base) : release_inv (init svc b).
Proof.
  split; [|split].
  - intros h th Hth. discriminate Hth.
  - intros [|] who n tr2 Heq; discriminate Heq.
  - discriminate.
Qed.

Lemma release_inv_start (s : state) : release_inv s -> release_inv (start s).
Proof.
  intros (Hth & Hfree & Hw). unfold PerformanceService.start.
  destruct (Service_start (base s)) as [b ns]. split; [|split]; cbn.
  - intros h th Hlook. apply lookup_app_Some in Hlook as [Hlook|[_ Hlook]].
    + by apply (Hth h).
    + apply list_lookup_imap_Some in Hlook as (node & _ & ->). cbn.
      apply worker_allowed.
  - apply frees_ok_app_free_less; [done|]. apply start_actions_free_less.
  - discriminate.
Qed.

Lemma release_inv_wait (s s' : state) :
  release_inv s ->
  wait s = Return s' \/ (exists e, wait s = Raise e s') ->
  release_inv s'.
Proof.
  intros (Hth & Hfree & Hw). unfold PerformanceService.wait. cbn.
  destruct (worker_threads s) as [| |hs] eqn:Ewt.
  - intros [Hret|[e Hret]]; [discriminate|]. injection Hret as _ <-.
    split; [|split]; cbn; [done| |by rewrite Ewt].
    apply frees_ok_app_free_less; [done|].
    intros who n [Hin|[]]. discriminate.
  - intros [Hret|[e Hret]]; [discriminate|]. injection Hret as _ <-.
    split; [|split]; cbn; [done| |]; [|intros _].
    + apply frees_ok_app_free_less; [done|].
      intros who n [Hin|[]]. discriminate.
    + unfold PerformanceService.waited. rewrite waited_from_app. by apply Hw.
  - destruct (forallb _ hs); intros [Hret|[e Hret]]; try discriminate.
    injection Hret as <-.
    split; [|split]; cbn; [done| |]; [|intros _].
    + apply frees_ok_app_free_less; [done|].
      intros who n Hin. apply in_map_iff in Hin as (a & Ha & Hin).
      injection Ha as _ ->.
      apply in_app_or in Hin as [Hin|[Hin|[]]]; [|discriminate].
      apply in_map_iff in Hin as (? & ? & _). discriminate.
    + unfold PerformanceService.waited.
      rewrite map_app, app_assoc, waited_from_app. reflexivity.
Qed.

Lemma release_inv_stop (s s' : state) :
  release_inv s ->
  stop s = Return s' \/ (exists e, stop s = Raise e s') ->
  release_inv s'.
Proof.
  intros (Hth & Hfree & Hw). unfold PerformanceService.stop. cbn.
  destruct (worker_threads s) as [| |hs] eqn:Ewt.
  - intros [Hret|[e Hret]]; [discriminate|]. injection Hret as _ <-.
    split; [|split]; cbn; [done| |by rewrite Ewt].
    apply frees_ok_app_free_less; [done|].
    intros who n [Hin|[]]. discriminate.
  - intros [Hret|[e Hret]]; [|discriminate]. injection Hret as <-.
    split; [|split]; cbn; [done| |]; [|intros _].
    + apply (frees_ok_stop _ (nodes s)); [done|]. by apply Hw.
    + unfold PerformanceService.waited. rewrite waited_from_app.
      fold (waited (trace s)). rewrite Hw by done.
      apply waited_from_neutral, (stop_actions_neutral (nodes s)).
  - intros [Hret|[e Hret]]; [discriminate|]. injection Hret as _ <-.
    split; [|split]; cbn; [done| |by rewrite Ewt].
    apply frees_ok_app_free_less; [done|].
    intros who n [Hin|[]]. discriminate.
Qed.

Lemma release_inv_thread (h : nat) (s s' : state) :
  release_inv s -> thread_step h s = Some s' -> release_inv s'.
Proof.
  intros (Hth & Hfree & Hw) Hstep.
  apply thread_step_spec in Hstep
    as (th & a & rest & todo' & new & Hlook & Htodo & _ & _ & _ & Hwt & Hthreads
        & Hrest & Htrace & Hnew & _).
  pose proof (Hth h th Hlook) as Hall. rewrite Htodo in Hall.
  cbn in Hall. apply andb_true_iff in Hall as [Ha Hall].
  split; [|split].
  - intros h' th' Hlook'. rewrite Hthreads in Hlook'.
    destruct (decide (h = h')) as [<-|Hne].
    + rewrite list_lookup_alter_eq, Hlook in Hlook'. injection Hlook' as <-. cbn.
      by destruct Hrest as [-> | ->].
    + rewrite list_lookup_alter_ne in Hlook' by done. by apply (Hth h').
  - rewrite Htrace. apply frees_ok_app_free_less; [done|].
    intros who n Hin. apply in_map_iff in Hin as (b & Hb & Hin).
    injection Hb as _ ->.
    destruct Hnew as [-> |[-> |[[fmt ->]| ->]]]; cbn in Hin.
    + destruct Hin as [->|[]]. discriminate Ha.
    + done.
    + destruct Hin as [Hin|[]]. discriminate Hin.
    + destruct Hin as [Hin|[]]. discriminate Hin.
  - rewrite Hwt, Htrace. intros Hnone.
    unfold PerformanceService.waited. rewrite waited_from_app.
    rewrite waited_from_neutral by apply worker_events_neutral. by apply Hw.
Qed.

Lemma release_inv_step (s s' : state) :
  release_inv s -> step s s' -> release_inv s'.
Proof.
  intros Hinv Hstep. destruct Hstep.
  - by apply release_inv_start.
  - eapply release_inv_wait; eauto.
  - eapply release_inv_wait; eauto.
  - eapply release_inv_stop; eauto.
  - eapply release_inv_stop; eauto.
  - eapply release_inv_thread; eauto.
Qed.

Lemma release_inv_reachable svc (b : Base) (s : state) :
  reachable svc b s -> release_inv s.
Proof.
  unfold PerformanceService.reachable. intros Hreach.
  revert s Hreach.
  apply (rtc_ind_r (R := step) (fun s => release_inv s) (init svc b)).
  - apply release_inv_init.
  - intros y z _ Hstep IH. by apply (release_inv_step y).
Qed.

Lemma thread_steps_step (s s' : state) : thread_steps s s' -> step s s'.
Proof. intros [h Hstep]. eapply step_thread. exact Hstep. Qed.

Lemma run_thread_steps (h : nat) (s : state) : rtc thread_steps s (run_thread h s).
Proof.
  unfold run_thread. destruct (thread_step h s) as [s'|] eqn:E; cbn.
  - apply rtc_once. by exists h.
  - apply rtc_refl.
Qed.

Lemma run_schedule_steps (hs : list nat) (s : state) :
  rtc thread_steps s (run_schedule hs s).
Proof.
  revert s. induction hs as [|h hs IH]; intros s; [apply rtc_refl|].
  cbn. eapply rtc_trans; [apply run_thread_steps|apply IH].
Qed.

Lemma thread_steps_keep_worker_threads (s s' : state) :
  rtc thread_steps s s' -> worker_threads s' = worker_threads s /\ nodes s' = nodes s.
Proof.
  induction 1 as [|x y z [h Hstep] _ [IHw IHn]]; [done|].
  apply thread_step_spec in Hstep
    as (? & ? & ? & ? & ? & _ & _ & _ & _ & Hn & Hwt & _).
  by rewrite IHw, IHn, Hwt, Hn.
Qed.

Lemma slots_inv_start svc (b : Base) :
  slots_inv svc (nodes (start (init svc b))) (start (init svc b)).
Proof.
  unfold PerformanceService.start. cbn.
  destruct (Service_start b) as [b' ns]. cbn.
  split; [done|]. split; [done|]. split; [apply length_replicate|].
  split; [apply length_imap|]. split; [|split].
  - intros h th Hlook.
    apply list_lookup_imap_Some in Hlook as (node & Hnode & ->). cbn.
    split; [done|]. split; [done|]. by exists [].
  - intros i r Hlook. apply lookup_replicate in Hlook as [Hlook _]. discriminate Hlook.
  - intros who slot r hd Hin.
    apply in_map_iff in Hin as (a & Ha & Hin). injection Ha as _ ->.
    apply in_app_or in Hin as [Hin|[Hin|[]]]; [|discriminate].
    apply in_flat_map in Hin as (i & _ & [Hin|[Hin|[]]]); discriminate.
Qed.

Lemma slots_inv_thread svc ns (h : nat) (s s' : state) :
  slots_inv svc ns s -> thread_step h s = Some s' -> slots_inv svc ns s'.
Proof.
  intros (Hself & Hnodes & Hres & Hlen & Hth & Hslots & Htr) Hstep.
  apply thread_step_spec in Hstep
    as (th & a & rest & todo' & new & Hlook & Htodo & Hself' & _ & Hnodes' & _
        & Hthreads & Hrest & Htrace & Hnew & Hres' & _ & Hstore).
  destruct (Hth h th Hlook) as (Hidx & Hnode & done & Hdone).
  rewrite Htodo in Hdone.
  assert (allowed (S h) a = true) as Ha.
  { pose proof (worker_allowed svc (S h) (th_node th)) as Hall.
    rewrite forallb_forall in Hall. apply Hall.
    rewrite Hdone. apply in_or_app. right. by left. }
  assert (h < length ns) as Hh by (by apply lookup_lt_Some in Hnode).
  split; [congruence|]. split; [congruence|]. split; [congruence|].
  split; [by rewrite Hthreads, length_alter|]. split; [|split].
  - intros h' th' Hlook'. rewrite Hthreads in Hlook'.
    destruct (decide (h = h')) as [<-|Hne].
    + rewrite list_lookup_alter_eq, Hlook in Hlook'. injection Hlook' as <-. cbn.
      split; [done|]. split; [done|].
      destruct Hrest as [-> | ->].
      * exists (done ++ [a]). by rewrite <- app_assoc.
      * exists (done ++ a :: rest). by rewrite app_nil_r.
    + rewrite list_lookup_alter_ne in Hlook' by done. by apply (Hth h').
  - intros i r Hi.
    destruct Hstore as [Hsame|(slot & r' & hd & -> & Hslot & Hins)].
    + rewrite Hsame in Hi. by apply Hslots.
    + cbn in Ha. apply Nat.eqb_eq in Ha. rewrite Nat.sub_0_r in Ha. subst slot.
      rewrite Hins in Hi. destruct (decide (h = i)) as [<-|Hne].
      * rewrite list_lookup_insert_eq in Hi by done. injection Hi as <-.
        exists (th_node th), hd. split; [done|].
        rewrite Hdone. apply in_or_app. right. by left.
      * rewrite list_lookup_insert_ne in Hi by done. by apply Hslots.
  - intros who slot r hd Hin. rewrite Htrace in Hin.
    apply in_app_or in Hin as [Hin|Hin]; [by apply (Htr who slot r hd)|].
    apply in_map_iff in Hin as (b & Hb & Hin). injection Hb as <- ->.
    destruct Hnew as [-> |[-> |[[fmt ->]| ->]]]; cbn in Hin.
    + destruct Hin as [->|[]]. cbn in Ha. apply Nat.eqb_eq in Ha.
      rewrite Nat.sub_0_r in Ha. subst slot. by rewrite Hidx.
    + done.
    + destruct Hin as [Hin|[]]. discriminate Hin.
    + destruct Hin as [Hin|[]]. discriminate Hin.
Qed.

Lemma slots_inv_threads svc ns (s s' : state) :
  slots_inv svc ns s -> rtc thread_steps s s' -> slots_inv svc ns s'.
Proof.
  intros Hinv Hrun. induction Hrun as [|x y z [h Hstep] _ IH]; [done|].
  apply IH. by apply (slots_inv_thread svc ns h x).
Qed.

(** *** Every thread comes to its end *)

Lemma sum_list_zero {A} (f : A -> nat) (l : list A) :
  sum_list (map f l) = 0 -> forall h x, l !! h = Some x -> f x = 0.
Proof.
  induction l as [|y l IH]; intros Hsum h x Hlook; [discriminate Hlook|].
  cbn in Hsum. destruct h as [|h]; cbn in Hlook.
  - injection Hlook as ->. lia.
  - apply (IH ltac:(lia) h x Hlook).
Qed.

Lemma sum_list_pos {A} (f : A -> nat) (l : list A) :
  sum_list (map f l) <> 0 -> exists h x, l !! h = Some x /\ f x <> 0.
Proof.
  induction l as [|y l IH]; intros Hsum; [done|].
  cbn in Hsum. destruct (decide (f y = 0)) as [Hy|Hy].
  - destruct IH as (h & x & Hlook & Hx); [lia|]. by exists (S h), x.
  - by exists 0, y.
Qed.

Lemma sum_list_alter_lt {A} (f : A -> nat) (g : A -> A) (l : list A) (h : nat) (x : A) :
  l !! h = Some x -> f (g x) < f x ->
  sum_list (map f (alter g h l)) < sum_list (map f l).
Proof.
  revert h. induction l as [|y l IH]; intros h Hlook Hlt; [discriminate Hlook|].
  destruct h as [|h]; cbn in Hlook |- *.
  - injection Hlook as ->. lia.
  - specialize (IH h Hlook Hlt). lia.
Qed.

Lemma thread_step_progress (h : nat) (s : state) th :
  threads s !! h = Some th -> th_todo th <> [] ->
  exists s', thread_step h s = Some s' /\ pending s' < pending s.
Proof.
  intros Hlook Hne. unfold PerformanceService.thread_step.
  rewrite Hlook. destruct (th_todo th) as [|a rest] eqn:Htodo; [done|].
  eexists. split; [reflexivity|].
  match goal with |- pending ?s' < _ => assert (thread_step h s = Some s') as Hstep end.
  { unfold PerformanceService.thread_step. by rewrite Hlook, Htodo. }
  apply thread_step_spec in Hstep
    as (th' & a' & rest' & todo' & new & Hlook' & Htodo' & _ & _ & _ & _
        & Hthreads & Hrest & _).
  rewrite Hlook in Hlook'. injection Hlook' as <-.
  rewrite Htodo in Htodo'. injection Htodo' as <- <-.
  unfold pending. rewrite Hthreads.
  apply (sum_list_alter_lt _ _ _ h th Hlook). cbn. rewrite Htodo.
  destruct Hrest as [-> | ->]; cbn; lia.
Qed.

Lemma threads_end (n : nat) :
  forall s : state,
    pending s <= n ->
    exists s', rtc thread_steps s s' /\ pending s' = 0.
Proof.
  induction n as [|n IH]; intros s Hn.
  - exists s. split; [apply rtc_refl|lia].
  - destruct (decide (pending s = 0)) as [Hz|Hnz].
    + exists s. split; [apply rtc_refl|done].
    + apply sum_list_pos in Hnz as (h & th & Hlook & Hth).
      destruct (thread_step_progress h s th Hlook) as (s1 & Hstep & Hlt).
      { intros E. by rewrite E in Hth. }
      destruct (IH s1 ltac:(lia)) as (s' & Hrun & Hz).
      exists s'. split; [|done].
      eapply rtc_l; [by exists h|exact Hrun].
Qed.

Lemma wait_returns_when_ended (s : state) (hs : list nat) :
  worker_threads s = Bound hs ->
  (forall h, In h hs -> h < length (threads s)) ->
  pending s = 0 ->
  exists s', wait s = Return s'.
Proof.
  intros Hwt Hhs Hz. unfold PerformanceService.wait. cbn. rewrite Hwt.
  assert (forallb (finished (set_base (Service_wait (base s)) s)) hs = true) as ->.
  { apply forallb_forall. intros h Hh.
    destruct (lookup_lt_is_Some_2 (threads s) h (Hhs h Hh)) as [th Hlook].
    pose proof (sum_list_zero _ _ Hz h th Hlook) as Hlen.
    unfold PerformanceService.finished. cbn. rewrite Hlook.
    destruct th as [idx node todo]. cbn in Hlen. by destruct todo. }
  eauto.
Qed.

(** C1: [start] spawns one worker per node, worker [i] on node [i] of the
    list.  However the workers are interleaved, when [wait] returns there
    are as many result slots as nodes; slot [i - 1] is empty or holds a
    record stored by the worker of node [i]; every store in the trace is
    by the worker bound to the slot.  And [wait] does return: the threads can
    always be run to their end. *)
Theorem result_slots_after_wait svc (b : Base) :
  threads (start (init svc b)) =
    imap (fun i node => {| th_idx := S i; th_node := node;
                           th_todo := worker svc (S i) node |})
      (nodes (start (init svc b))) /\
  (forall s2 s3 : state,
     rtc thread_steps (start (init svc b)) s2 ->
     wait s2 = Return s3 ->
     nodes s3 = nodes (start (init svc b)) /\
     length (results s3) = length (nodes s3) /\
     (forall i node,
        nodes s3 !! i = Some node ->
        results s3 !! i = Some None \/
        exists r hd, results s3 !! i = Some (Some r) /\
                     In (StoreResult i r hd) (worker svc (S i) node)) /\
     (forall who slot r hd,
        In (who, StoreResult slot r hd) (trace s3) ->
        who = Worker (S slot) /\ slot < length (nodes s3))) /\
  (exists s2 s3 : state,
     rtc thread_steps (start (init svc b)) s2 /\ wait s2 = Return s3).
Proof.
  split; [|split].
  - unfold PerformanceService.start. cbn. by destruct (Service_start b).
  - intros s2 s3 Hrun Hwait.
    pose proof (slots_inv_threads svc _ _ s2 (slots_inv_start svc b) Hrun)
      as (_ & Hnodes & Hres & _ & _ & Hslots & Htr).
    set (ns := nodes (start (init svc b))) in *.
    assert (nodes s3 = nodes s2 /\ results s3 = results s2 /\
            exists hs : list nat, trace s3 =
              trace s2 ++ map (pair Main)
                (map (fun _ => Log DEBUG "Waiting for %s worker %d to finish") hs
                 ++ [Returned Wait])) as (Hn3 & Hr3 & hs & Ht3).
    { revert Hwait. unfold PerformanceService.wait. cbn.
      destruct (worker_threads s2) as [| |hs]; try discriminate.
      destruct (forallb _ hs); [|discriminate].
      intros Hret. injection Hret as <-. cbn. eauto. }
    rewrite Hn3, Hr3, Hnodes. split; [done|]. split; [done|]. split.
    + intros i node Hnode.
      assert (i < length (results s2)) as Hi.
      { rewrite Hres. by apply lookup_lt_Some in Hnode. }
      destruct (lookup_lt_is_Some_2 _ _ Hi) as [[r|] Hlook]; [|by left].
      right. destruct (Hslots i r Hlook) as (node' & hd & Hnode' & Hin).
      rewrite Hnode in Hnode'. injection Hnode' as <-. eauto.
    + intros who slot r hd Hin. rewrite Ht3 in Hin.
      apply in_app_or in Hin as [Hin|Hin]; [by apply (Htr who slot r hd)|].
      apply in_map_iff in Hin as (a & Ha & Hin). injection Ha as _ ->.
      apply in_app_or in Hin as [Hin|[Hin|[]]]; [|discriminate].
      apply in_map_iff in Hin as (? & ? & _). discriminate.
  - destruct (threads_end (pending (start (init svc b))) (start (init svc b)))
      as (s2 & Hrun & Hz); [done|].
    pose proof (slots_inv_threads svc _ _ s2 (slots_inv_start svc b) Hrun)
      as (_ & _ & _ & Hlen & _).
    destruct (thread_steps_keep_worker_threads _ _ Hrun) as [Hwt _].
    destruct (wait_returns_when_ended s2
                (seq 0 (length (nodes (start (init svc b)))))) as [s3 Hs3].
    + rewrite Hwt. unfold PerformanceService.start. cbn.
      by destruct (Service_start b).
    + intros h Hh. apply in_seq in Hh. lia.
    + done.
    + by exists s2, s3.
Qed.

(** C6: no worker releases a node; [stop] returns only when the thread list
    is [None], and then releases each node of the node list once, in order,
    and nothing is released when it raises; in every run, each release is
    done by the main thread at a point where [wait] has returned since the
    last [start]. *)
Theorem nodes_released_only_by_stop_after_wait :
  (forall svc idx node n, ~ In (Free n) (worker svc idx node)) /\
  (forall s s' : state,
     stop s = Return s' ->
     worker_threads s = PyNone /\
     trace s' = trace s ++ map (pair Main) (stop_actions (nodes s)) /\
     frees (trace s') = frees (trace s) ++ nodes s) /\
  (forall (s : state) e s',
     stop s = Raise e s' -> frees (trace s') = frees (trace s)) /\
  (forall svc b (s : state),
     reachable svc b s ->
     forall tr1 who n tr2,
       trace s = tr1 ++ (who, Free n) :: tr2 ->
       who = Main /\ waited tr1 = true).
Proof.
  split; [|split; [|split]].
  - intros svc idx node n Hin.
    pose proof (worker_allowed svc idx node) as Hall.
    rewrite forallb_forall in Hall. specialize (Hall _ Hin). discriminate Hall.
  - intros s s'. unfold PerformanceService.stop. cbn.
    destruct (worker_threads s); intros Hret; try discriminate.
    injection Hret as <-. cbn. split; [done|]. split; [done|].
    unfold frees at 1. rewrite omap_app. fold (frees (trace s)).
    f_equal. apply frees_stop_actions.
  - intros s e s'. unfold PerformanceService.stop. cbn.
    destruct (worker_threads s); intros Hret; try discriminate;
      injection Hret as _ <-; cbn; unfold frees; rewrite omap_app; cbn;
      apply app_nil_r.
  - intros svc b s Hreach.
    by destruct (release_inv_reachable svc b s Hreach) as (_ & Hfree & _).
Qed.

(** C5, as the code has it: after [start], whatever the threads have done,
    [stop] raises [AssertionError] and releases nothing; once [wait] has
    returned, a second [wait] raises [TypeError], from iterating over the
    thread list that is now [None], not an assertion. *)
Theorem stop_before_wait_and_second_wait :
  (forall s s' : state,
     rtc thread_steps (start s) s' ->
     raised (stop s') = Some Py.AssertionError /\
     frees (trace (after (stop s') s')) = frees (trace s')) /\
  (forall s s' : state,
     wait s = Return s' -> raised (wait s') = Some Py.TypeError).
Proof.
  split.
  - intros s s' Hrun.
    apply thread_steps_keep_worker_threads in Hrun as [Hwt _].
    assert (exists hs, worker_threads s' = Bound hs) as [hs Hhs].
    { rewrite Hwt. unfold PerformanceService.start.
      destruct (Service_start (base s)). cbn. eauto. }
    unfold PerformanceService.stop. cbn. rewrite Hhs. cbn.
    split; [done|]. unfold frees. rewrite omap_app. cbn. apply app_nil_r.
  - intros s s'. unfold PerformanceService.wait at 1. cbn.
    destruct (worker_threads s); try discriminate.
    destruct (forallb _ _); [|discriminate].
    intros Hret. injection Hret as <-. reflexivity.
Qed.

End LifeCycle.

Lemma result_slots_after_wait_witness :
  length (PerformanceService.results run_waited) = 2 /\
  PerformanceService.results run_waited !! 1 = Some None /\
  exists r,
    PerformanceService.results run_waited !! 0 = Some (Some r) /\
    r !! "records" = Some (Py.Int 1000).
Proof.
  destruct (result_slots_after_wait two_nodes no_op (Producer sampling_producer) tt)
    as (_ & Hslots & _).
  destruct (Hslots run_finished run_waited) as (_ & Hlen & _).
  - apply (run_schedule_steps [0; 1; 0; 1; 0; 1; 0; 1; 0; 0]).
  - vm_compute. reflexivity.
  - split; [exact Hlen|]. split; [vm_compute; reflexivity|].
    eexists. split; vm_compute; reflexivity.
Defined.

Lemma nodes_released_only_by_stop_after_wait_witness :
  PerformanceService.waited
    (PerformanceService.trace run_waited
     ++ [(Main, Log DEBUG "Stopping %s node %d on %s")]) = true.
Proof.
  destruct (nodes_released_only_by_stop_after_wait two_nodes no_op no_op)
    as (_ & _ & _ & Hrun).
  refine (proj2 (Hrun (Producer sampling_producer) tt run_stopped _
                   (PerformanceService.trace run_waited
                    ++ [(Main, Log DEBUG "Stopping %s node %d on %s")])
                   Main noisy_node
                   [(Main, Log DEBUG "Stopping %s node %d on %s");
                    (Main, Free garbled_node); (Main, Returned Stop)] _)).
  - unfold PerformanceService.reachable.
    eapply rtc_l; [apply PerformanceService.step_start|].
    eapply rtc_trans.
    { eapply rtc_subrel; [|apply (run_schedule_steps [0; 1; 0; 1; 0; 1; 0; 1; 0; 0])].
      intros x y. apply thread_steps_step. }
    eapply rtc_l; [apply PerformanceService.step_wait_return with (s' := run_waited);
                   vm_compute; reflexivity|].
    eapply rtc_l; [apply PerformanceService.step_stop_return with (s' := run_stopped);
                   vm_compute; reflexivity|].
    apply rtc_refl.
  - vm_compute. reflexivity.
Defined.

Lemma stop_before_wait_and_second_wait_witness :
  raised (PerformanceService.stop no_op run_finished) = Some Py.AssertionError /\
  raised (PerformanceService.wait no_op run_waited) = Some Py.TypeError.
Proof.
  destruct (stop_before_wait_and_second_wait two_nodes no_op no_op) as [Hstop Hwait].
  split.
  - apply (Hstop (PerformanceService.init (Producer sampling_producer) tt) run_finished).
    apply (run_schedule_steps [0; 1; 0; 1; 0; 1; 0; 1; 0; 0]).
  - apply (Hwait run_finished run_waited). vm_compute. reflexivity.
Defined.

(** C5, as stated, fails on the second [wait]: the exception is a
    [TypeError], not the [AssertionError] of an [assert]. *)
Lemma second_wait_is_not_an_assertion :
  PerformanceService.wait no_op run_finished = PerformanceService.Return run_waited /\
  raised (PerformanceService.wait no_op run_waited) = Some Py.TypeError /\
  raised (PerformanceService.wait no_op run_waited) <> Some Py.AssertionError.
Proof.
  split; [vm_compute; reflexivity|].
  split; [vm_compute; reflexivity|].
  vm_compute. discriminate.
Qed.

(** * Further properties *)

(** ** What the parsers raise *)

Lemma index_raises {A} (l : list A) (k : nat) (e : Py.exn) :
  Py.index l k = Py.Raise e -> e = Py.IndexError.
Proof. unfold Py.index. destruct (l !! k); congruence. Qed.

Lemma int_raises (s : string) (e : Py.exn) :
  Py.int s = Py.Raise e -> e = Py.ValueError.
Proof.
  unfold Py.int. destruct (Py.take_sign _) as [neg body].
  destruct (Py.take_digits 0 0 body) as [[m [|n]] [|c r]]; congruence.
Qed.

Lemma float_raises (s : string) (e : Py.exn) :
  Py.float s = Py.Raise e -> e = Py.ValueError.
Proof.
  unfold Py.float. destruct (Py.take_sign _) as [neg body].
  destruct (_ || _); [discriminate|].
  destruct (String.eqb _ _); [discriminate|].
  destruct (Py.take_digits 0 0 body) as [[m1 n1] r1].
  destruct (match r1 with
            | String "." r => Py.take_digits m1 0 r
            | _ => (m1, 0, r1)
            end) as [[m n2] r2].
  destruct (n1 + n2); [congruence|].
  destruct (Py.take_exponent r2); congruence.
Qed.

Lemma bind_raises {A B} (m : Py.result A) (k : A -> Py.result B) (e : Py.exn) :
  (m ≫= k) = Py.Raise e ->
  m = Py.Raise e \/ exists a, m = Py.Ok a /\ k a = Py.Raise e.
Proof.
  destruct m as [a|e']; intros H.
  - right. by exists a.
  - left. rewrite bind_Raise in H. by injection H as ->.
Qed.

Lemma leading_token_raises (parts : list string) (k : nat) (e : Py.exn) :
  leading_token parts k = Py.Raise e -> e = Py.IndexError.
Proof.
  unfold leading_token. intros H.
  apply bind_raises in H as [H|(p & _ & H)]; by apply index_raises in H.
Qed.

Lemma paren_token_raises (parts : list string) (e : Py.exn) :
  paren_token parts = Py.Raise e -> e = Py.IndexError.
Proof.
  unfold paren_token. intros H.
  apply bind_raises in H as [H|(p & _ & H)]; [by apply index_raises in H|].
  apply bind_raises in H as [H|(q & _ & H)]; by apply index_raises in H.
Qed.

(** Split a failed sequence of entries at the entry that failed. *)
Ltac entry_raises H :=
  apply bind_raises in H as [H|(? & _ & H)];
  [ apply bind_raises in H as [H|(? & _ & H)];
    [ first [ apply leading_token_raises in H | apply paren_token_raises in H ];
      subst; by left
    | first [ apply int_raises in H | apply float_raises in H ];
      subst; by right ]
  | ].

Lemma summary_dict_raises (parts : list string) (e : Py.exn) :
  summary_dict parts = Py.Raise e -> parse_error e.
Proof.
  unfold summary_dict, parse_error. intros H.
  do 9 entry_raises H. discriminate H.
Qed.

(** The record of a successful [summary_dict], entry by entry. *)
Lemma summary_dict_shape (parts : list string) (results : record) :
  summary_dict parts = Py.Ok results ->
  exists records records_per_sec mbps avg mx p50 p95 p99 p999,
    results =
      <["records" := Py.Int records]>
      (<["records_per_sec" := Py.Float records_per_sec]>
      (<["mbps" := Py.Float mbps]>
      (<["latency_avg_ms" := Py.Float avg]>
      (<["latency_max_ms" := Py.Float mx]>
      (<["latency_50th_ms" := Py.Float p50]>
      (<["latency_95th_ms" := Py.Float p95]>
      (<["latency_99th_ms" := Py.Float p99]>
      (<["latency_999th_ms" := Py.Float p999]> ∅)))))))).
Proof.
  unfold summary_dict. intros Hok.
  repeat match type of Hok with
         | (?m ≫= _) = Py.Ok _ =>
             destruct m; [rewrite bind_Ok in Hok | discriminate Hok]
         end.
  injection Hok as <-. by do 9 eexists.
Qed.

(** [parse_performance_output] after the nine entries have been parsed. *)
Lemma parse_performance_output_derived (summary : option string)
    (parts : list string) (results : record) :
  Py.split_on "," summary = Py.Ok parts ->
  summary_dict parts = Py.Ok results ->
  exists mbps records records_per_sec,
    results !! "mbps" = Some (Py.Float mbps) /\
    results !! "records" = Some (Py.Int records) /\
    results !! "records_per_sec" = Some (Py.Float records_per_sec) /\
    parse_performance_output summary =
      (q ← Py.int_div_float records records_per_sec;
       mret (<["rate_mps" := Py.Float records_per_sec]>
            (<["rate_mbps" := Py.Float mbps]>
            (<["total_mb" := Py.Float (mbps * q)]> results)))).
Proof.
  intros Hsplit Hdict.
  destruct (summary_dict_types parts results Hdict) as (m & n & r & Hm & Hn & Hr).
  exists m, n, r. split; [done|]. split; [done|]. split; [done|].
  unfold parse_performance_output.
  by rewrite Hsplit, bind_Ok, Hdict, bind_Ok, Hm, Hn, Hr.
Qed.

Lemma consumer_parse_last_raises (line : string) (e : Py.exn) :
  ConsumerPerformanceService.parse_last (Some line) = Py.Raise e -> parse_error e.
Proof.
  unfold ConsumerPerformanceService.parse_last, parse_error. cbn [Py.split_on].
  rewrite bind_Ok. intros H.
  do 3 (apply bind_raises in H as [H|(? & _ & H)];
        [ apply bind_raises in H as [H|(? & _ & H)];
          [ apply index_raises in H; subst; by left
          | apply float_raises in H; subst; by right ]
        | ]).
  discriminate H.
Qed.

(** X10: on a string, the three inline parsers fail only with [IndexError]
    or [ValueError]; the shared parser can fail in addition with
    [ZeroDivisionError] or [OverflowError], from the derived total. *)
Theorem parsers_raise_only_parse_errors (line : string) (e : Py.exn) :
  (parse_stats (Some line) = Py.Raise e -> parse_error e) /\
  (RestProducerPerformanceService.parse_last (Some line) = Py.Raise e -> parse_error e) /\
  (ConsumerPerformanceService.parse_last (Some line) = Py.Raise e -> parse_error e) /\
  (parse_performance_output (Some line) = Py.Raise e ->
   parse_error e \/ e = Py.ZeroDivisionError \/ e = Py.OverflowError).
Proof.
  split; [|split; [|split]].
  - unfold parse_stats. cbn [Py.split_on]. rewrite bind_Ok. apply summary_dict_raises.
  - unfold RestProducerPerformanceService.parse_last. cbn [Py.split_on].
    rewrite bind_Ok. apply summary_dict_raises.
  - apply consumer_parse_last_raises.
  - intros H.
    destruct (summary_dict (Py.split_sep "," line)) as [results|e'] eqn:Hdict.
    2:{ left. unfold parse_performance_output in H. cbn [Py.split_on] in H.
        rewrite bind_Ok, Hdict, bind_Raise in H. injection H as <-.
        by apply (summary_dict_raises (Py.split_sep "," line)). }
    destruct (parse_performance_output_derived (Some line) _ results eq_refl Hdict)
      as (mbps & n & rps & _ & _ & _ & Heq).
    rewrite Heq in H.
    apply bind_raises in H as [H|(q & _ & H)]; [|discriminate H].
    right. unfold Py.int_div_float in H.
    apply bind_raises in H as [H|(a & _ & H)].
    + unfold Py.float_of_int in H. destruct (is_infinity _); [|discriminate H].
      injection H as <-. by right.
    + destruct (is_zero rps); [|discriminate H]. injection H as <-. by left.
Qed.

Lemma parsers_raise_only_parse_errors_witness : parse_error Py.ValueError.
Proof.
  apply (proj1 (parsers_raise_only_parse_errors "Exception in thread main" Py.ValueError)).
  vm_compute. reflexivity.
Defined.

(** X8: the shared parser extends the inline one.  Where [parse_stats]
    raises, [parse_performance_output] raises the same exception; where
    [parse_performance_output] returns, [parse_stats] returns the nine parsed
    entries, all of them are in the shared record unchanged, the shared record
    has the three derived entries and no other, and [rate_mbps] and [rate_mps]
    repeat [mbps] and [records_per_sec]. *)
Theorem shared_parser_extends_inline_parser (summary : option string) :
  (forall e, parse_stats summary = Py.Raise e ->
             parse_performance_output summary = Py.Raise e) /\
  (forall results,
     parse_performance_output summary = Py.Ok results ->
     exists parsed,
       parse_stats summary = Py.Ok parsed /\
       parsed ⊆ results /\
       dom parsed = parsed_keys /\
       dom results = parsed_keys ∪ derived_keys /\
       results !! "rate_mbps" = parsed !! "mbps" /\
       results !! "rate_mps" = parsed !! "records_per_sec").
Proof.
  split.
  - unfold parse_stats, parse_performance_output.
    intros e H. apply bind_raises in H as [H|(parts & Hsplit & H)].
    + by rewrite H.
    + by rewrite Hsplit, bind_Ok, H.
  - intros results H.
    destruct (Py.split_on "," summary) as [parts|e] eqn:Hsplit.
    2:{ unfold parse_performance_output in H.
        rewrite Hsplit in H. discriminate H. }
    destruct (summary_dict parts) as [parsed|e] eqn:Hdict.
    2:{ unfold parse_performance_output in H.
        rewrite Hsplit, bind_Ok, Hdict in H. discriminate H. }
    exists parsed. split.
    { unfold parse_stats. by rewrite Hsplit, bind_Ok. }
    destruct (parse_performance_output_derived summary parts parsed Hsplit Hdict)
      as (mbps & n & rps & Hm & Hn & Hr & Heq).
    rewrite Heq in H.
    destruct (Py.int_div_float n rps) as [q|]; [|discriminate H].
    rewrite bind_Ok in H. injection H as <-.
    apply summary_dict_shape in Hdict
      as (n' & rps' & mbps' & ? & ? & ? & ? & ? & ? & ->).
    split; [|split; [|split; [|split]]].
    + etrans; [|apply insert_subseteq; vm_compute; reflexivity].
      etrans; [|apply insert_subseteq; vm_compute; reflexivity].
      apply insert_subseteq. vm_compute. reflexivity.
    + vm_compute. reflexivity.
    + vm_compute. reflexivity.
    + rewrite Hm. vm_compute. reflexivity.
    + rewrite Hr. vm_compute. reflexivity.
Qed.

Lemma shared_parser_extends_inline_parser_witness :
  exists parsed,
    parse_stats (Some summary_line) = Py.Ok parsed /\
    parsed ⊆ summary_shared /\
    dom parsed = parsed_keys /\
    dom summary_shared = parsed_keys ∪ derived_keys /\
    summary_shared !! "rate_mbps" = parsed !! "mbps" /\
    summary_shared !! "rate_mps" = parsed !! "records_per_sec".
Proof.
  apply (proj2 (shared_parser_extends_inline_parser (Some summary_line)) summary_shared).
  vm_compute. reflexivity.
Defined.

(** X9: a summary line that [parse_stats] accepts but whose rate is zero
    makes [parse_performance_output] raise: the derived total divides by the
    rate ([ZeroDivisionError], or [OverflowError] when the record count does
    not fit a float).  The REST consumer and schema registry workers, which
    use the shared parser, die on such a line. *)
Theorem zero_rate_fails_shared_parser
    (summary : option string) (parsed : record) (rate : float) :
  parse_stats summary = Py.Ok parsed ->
  parsed !! "records_per_sec" = Some (Py.Float rate) ->
  is_zero rate = true ->
  parse_performance_output summary = Py.Raise Py.ZeroDivisionError \/
  parse_performance_output summary = Py.Raise Py.OverflowError.
Proof.
  unfold parse_stats. intros Hparsed Hrate Hzero.
  destruct (Py.split_on "," summary) as [parts|e] eqn:Hsplit; [|discriminate Hparsed].
  rewrite bind_Ok in Hparsed.
  destruct (parse_performance_output_derived summary parts parsed Hsplit Hparsed)
    as (mbps & n & rps & _ & _ & Hr & ->).
  rewrite Hrate in Hr. injection Hr as <-.
  unfold Py.int_div_float, Py.float_of_int.
  destruct (is_infinity _).
  - right. reflexivity.
  - left. rewrite bind_Ok, Hzero. reflexivity.
Qed.

Lemma zero_rate_fails_shared_parser_witness :
  parse_performance_output
    (Some "0 records, 0.0 records/sec (0.0 MB/sec), 0.0 ms avg, 0.0 ms max, 0 ms 50th, 0 ms 95th, 0 ms 99th, 0 ms 99.9th")
  = Py.Raise Py.ZeroDivisionError.
Proof.
  destruct (zero_rate_fails_shared_parser
              (Some "0 records, 0.0 records/sec (0.0 MB/sec), 0.0 ms avg, 0.0 ms max, 0 ms 50th, 0 ms 95th, 0 ms 99th, 0 ms 99.9th")
              (<["records" := Py.Int 0]>
               (<["records_per_sec" := Py.Float 0]>
               (<["mbps" := Py.Float 0]>
               (<["latency_avg_ms" := Py.Float 0]>
               (<["latency_max_ms" := Py.Float 0]>
               (<["latency_50th_ms" := Py.Float 0]>
               (<["latency_95th_ms" := Py.Float 0]>
               (<["latency_99th_ms" := Py.Float 0]>
               (<["latency_999th_ms" := Py.Float 0]> ∅)))))))))
              0%float) as [H|H].
  - vm_compute. reflexivity.
  - vm_compute. reflexivity.
  - vm_compute. reflexivity.
  - exact H.
  - exfalso. revert H. vm_compute. discriminate.
Defined.

(** ** Fields beyond those that are read *)

Lemma split_by_nonempty (p : ascii -> bool) (s : string) : Py.split_by p s <> [].
Proof.
  destruct s as [|c s]; cbn; [discriminate|].
  destruct (p c); [discriminate|]. destruct (Py.split_by p s); discriminate.
Qed.

Lemma split_sep_app (c : ascii) (a b : string) :
  Py.split_sep c (a +:+ String c b) = Py.split_sep c a ++ Py.split_sep c b.
Proof.
  unfold Py.split_sep. induction a as [|x a IH].
  - change (EmptyString +:+ String c b) with (String c b).
    cbn [Py.split_by app]. by rewrite Ascii.eqb_refl.
  - change (String x a +:+ String c b) with (String x (a +:+ String c b)).
    cbn [Py.split_by]. rewrite IH. destruct (Ascii.eqb c x); [reflexivity|].
    pose proof (split_by_nonempty (Ascii.eqb c) a) as Hne.
    destruct (Py.split_by (Ascii.eqb c) a); [done|reflexivity].
Qed.

Lemma index_app_l {A} (l extra : list A) (k : nat) :
  k < length l -> Py.index (l ++ extra) k = Py.index l k.
Proof. intros Hk. unfold Py.index. by rewrite lookup_app_l. Qed.

Lemma summary_dict_app (parts extra : list string) :
  8 <= length parts -> summary_dict (parts ++ extra) = summary_dict parts.
Proof.
  intros Hlen. unfold summary_dict, leading_token, paren_token.
  by rewrite !index_app_l by lia.
Qed.

(** X11: only the first eight comma-separated fields are read.  Whatever
    follows an eighth comma changes neither the result nor the failure of
    the two summary parsers. *)
Theorem fields_after_the_eighth_are_ignored (line more : string) :
  8 <= length (Py.split_sep "," line) ->
  parse_stats (Some (line +:+ String "," more)) = parse_stats (Some line) /\
  parse_performance_output (Some (line +:+ String "," more)) =
    parse_performance_output (Some line).
Proof.
  intros Hlen. unfold parse_stats, parse_performance_output.
  cbn [Py.split_on]. rewrite !bind_Ok, split_sep_app, summary_dict_app by done.
  done.
Qed.

Lemma fields_after_the_eighth_are_ignored_witness :
  parse_stats
    (Some ("1000 records, 500.0 records/sec (2.5 MB/sec), 10.0 ms avg, 50.0 ms max, 8.0 ms 50th, 20.0 ms 95th, 30.0 ms 99th, 40.0 ms 99.9th"
           +:+ String "," " 1 retries")) =
  parse_stats (Some summary_line).
Proof.
  apply (fields_after_the_eighth_are_ignored summary_line " 1 retries").
  vm_compute. lia.
Defined.

(** X12: the consumer worker reads fields 3, 4 and 6 of the last line.  When
    the last line has fewer than seven comma-separated fields the parse
    raises [IndexError] or [ValueError], and the exception ends the worker:
    its last action is to die, and it stores nothing. *)
Theorem consumer_short_last_line_ends_worker
    (self : ConsumerPerformanceService.t) (idx : nat) (node : Node) (line : string) :
  last (ssh_capture node (ConsumerPerformanceService.cmd self)) = Some line ->
  length (Py.split_sep "," line) < 7 ->
  exists e,
    parse_error e /\
    ConsumerPerformanceService.parse_last (Some line) = Py.Raise e /\
    last (ConsumerPerformanceService._worker self idx node) = Some (Die e) /\
    forallb (fun a => negb (is_StoreResult a))
      (ConsumerPerformanceService._worker self idx node) = true.
Proof.
  intros Hlast Hlen.
  assert (exists e, ConsumerPerformanceService.parse_last (Some line) = Py.Raise e)
    as [e He].
  { unfold ConsumerPerformanceService.parse_last. cbn [Py.split_on].
    rewrite bind_Ok. do 2 step_bind.
    rewrite index_short by lia. eexists. reflexivity. }
  exists e. split; [|split; [done|]].
  { by apply (consumer_parse_last_raises line). }
  unfold ConsumerPerformanceService._worker.
  rewrite consume_spec, Hlast, He. cbn [store_or_die]. split.
  - rewrite !app_assoc. apply last_snoc.
  - cbn [app forallb is_StoreResult negb andb]. rewrite forallb_app.
    rewrite forallb_flat_map; [reflexivity|done].
Qed.

Lemma consumer_short_last_line_ends_worker_witness :
  exists e,
    parse_error e /\
    ConsumerPerformanceService.parse_last (Some "Exception in thread main") = Py.Raise e /\
    last (ConsumerPerformanceService._worker consumer_service 1 garbled_node) = Some (Die e) /\
    forallb (fun a => negb (is_StoreResult a))
      (ConsumerPerformanceService._worker consumer_service 1 garbled_node) = true.
Proof.
  apply (consumer_short_last_line_ends_worker consumer_service 1 garbled_node
           "Exception in thread main").
  - reflexivity.
  - vm_compute. lia.
Defined.

(** ** What a worker stores and samples *)

Lemma omap_none {A B} (f : A -> option B) (l : list A) :
  (forall x, In x l -> f x = None) -> omap f l = [].
Proof.
  induction l as [|x l IH]; intros Hf; [reflexivity|].
  cbn. rewrite (Hf x) by (by left). apply IH. intros y Hy. apply Hf. by right.
Qed.

Lemma omap_logs {B} (f : action -> option B) (lvl : level) (fmt : string)
    (lines : list string) :
  f (Log lvl fmt) = None ->
  omap f (flat_map (fun _ : string => [Log lvl fmt]) lines) = [].
Proof.
  intros Hf. apply omap_none. intros a Ha.
  apply in_flat_map in Ha as (line & _ & [<-|[]]). exact Hf.
Qed.

Lemma omap_log_map {B} (f : action -> option B) (lvl : level) (fmt : string)
    (lines : list string) :
  f (Log lvl fmt) = None ->
  omap f (map (fun _ : string => Log lvl fmt) lines) = [].
Proof.
  intros Hf. apply omap_none. intros a Ha.
  apply in_map_iff in Ha as (line & <- & _). exact Hf.
Qed.

Lemma stored_store_or_die (slot : nat) (parsed : Py.result record) :
  stored (store_or_die slot parsed) = to_option parsed.
Proof. by destruct parsed. Qed.

Lemma latency_fold_raise (e : Py.exn) (lines : list string) :
  fold_left (fun acc line => acc ≫= EndToEndLatencyService.on_line line) lines
    (Py.Raise e) = Py.Raise e.
Proof. induction lines as [|line lines IH]; [reflexivity|]. cbn. exact IH. Qed.

Lemma stored_latency_loop (slot : nat) (lines : list string) :
  forall results,
    stored (EndToEndLatencyService.loop slot results lines) =
    to_option (latency_fold results lines).
Proof.
  induction lines as [|line lines IH]; intros results; [reflexivity|].
  unfold latency_fold. cbn [EndToEndLatencyService.loop fold_left].
  rewrite bind_Ok.
  destruct (EndToEndLatencyService.on_line line results) as [results'|e].
  - apply IH.
  - by rewrite latency_fold_raise.
Qed.

Lemma sampled_latency_loop (slot : nat) (lines : list string) :
  forall results, sampled (EndToEndLatencyService.loop slot results lines) = [].
Proof.
  induction lines as [|line lines IH]; intros results; [reflexivity|].
  cbn [EndToEndLatencyService.loop].
  destruct (EndToEndLatencyService.on_line line results); [apply IH|reflexivity].
Qed.

Lemma producer_on_line_stores_nothing self idx (lines : list string) :
  omap store_of (flat_map (ProducerPerformanceService.on_line self idx) lines) = [].
Proof.
  apply omap_none. intros a Ha. apply in_flat_map in Ha as (line & _ & Ha).
  unfold ProducerPerformanceService.on_line in Ha.
  destruct Ha as [<-|Ha]; [reflexivity|].
  destruct (ProducerPerformanceService.intermediate_stats self); [|done].
  destruct (parse_stats (Some line)); [|done].
  by destruct Ha as [<-|[]].
Qed.

(** Distribute [omap] over the pieces of a worker and drop the literal
    pieces, which hold no store and no sample. *)
Ltac omap_pieces :=
  rewrite ?omap_app;
  repeat match goal with
         | |- context [omap ?f (?a :: ?l)] =>
             change (omap f (a :: l)) with (@nil record)
         end;
  rewrite ?app_nil_l, ?app_nil_r.

(** The record a worker stores is the one its node's output determines. *)
Lemma stored_worker (svc : service) (idx : nat) (node : Node) :
  stored (worker svc idx node) = final_record svc node.
Proof.
  destruct svc as [self|self|self|self|self|self|self|self];
    cbn [worker final_record].
  - unfold ProducerPerformanceService._worker, stored. rewrite consume_spec.
    omap_pieces. rewrite producer_on_line_stores_nothing.
    unfold ProducerPerformanceService.on_end.
    by destruct (parse_stats _).
  - unfold RestProducerPerformanceService._worker, stored. rewrite consume_spec.
    omap_pieces. rewrite omap_logs by done. apply stored_store_or_die.
  - unfold ConsumerPerformanceService._worker, stored. rewrite consume_spec.
    omap_pieces. rewrite omap_logs by done. apply stored_store_or_die.
  - unfold RestConsumerPerformanceService._worker, stored. rewrite consume_spec.
    omap_pieces. rewrite omap_logs by done. apply stored_store_or_die.
  - unfold SchemaRegistryPerformanceService._worker, stored. rewrite consume_spec.
    omap_pieces. rewrite omap_logs by done. apply stored_store_or_die.
  - unfold HadoopPerformanceService._worker, stored.
    omap_pieces. by rewrite omap_log_map.
  - unfold CamusPerformanceService._worker, CamusPerformanceService.create_camus_props, stored.
    omap_pieces. by rewrite !omap_log_map.
  - unfold EndToEndLatencyService._worker.
    apply (stored_latency_loop (idx - 1)).
Qed.

(** The samples a worker appends are those its node's output determines. *)
Lemma sampled_worker (svc : service) (idx : nat) (node : Node) :
  sampled (worker svc idx node) = samples svc node.
Proof.
  destruct svc as [self|self|self|self|self|self|self|self];
    cbn [worker samples].
  - unfold ProducerPerformanceService._worker, sampled. rewrite consume_spec.
    omap_pieces.
    assert (omap stat_of (ProducerPerformanceService.on_end idx
              (last (ssh_capture node (ProducerPerformanceService.cmd self)))) = []) as ->.
    { unfold ProducerPerformanceService.on_end. by destruct (parse_stats _). }
    rewrite app_nil_r.
    induction (ssh_capture node (ProducerPerformanceService.cmd self)) as [|line lines IH].
    { by destruct (ProducerPerformanceService.intermediate_stats self). }
    cbn [flat_map]. rewrite omap_app, IH.
    unfold ProducerPerformanceService.on_line.
    destruct (ProducerPerformanceService.intermediate_stats self); [|reflexivity].
    change (omap (fun line0 => to_option (parse_stats (Some line0))) (line :: lines))
      with (match to_option (parse_stats (Some line)) with
            | Some r => r :: omap (fun line0 => to_option (parse_stats (Some line0))) lines
            | None => omap (fun line0 => to_option (parse_stats (Some line0))) lines
            end).
    by destruct (parse_stats (Some line)).
  - unfold RestProducerPerformanceService._worker, sampled. rewrite consume_spec.
    omap_pieces. rewrite omap_logs by done.
    by destruct (RestProducerPerformanceService.parse_last _).
  - unfold ConsumerPerformanceService._worker, sampled. rewrite consume_spec.
    omap_pieces. rewrite omap_logs by done.
    by destruct (ConsumerPerformanceService.parse_last _).
  - unfold RestConsumerPerformanceService._worker, sampled. rewrite consume_spec.
    omap_pieces. rewrite omap_logs by done.
    by destruct (parse_performance_output _).
  - unfold SchemaRegistryPerformanceService._worker, sampled. rewrite consume_spec.
    omap_pieces. rewrite omap_logs by done.
    by destruct (parse_performance_output _).
  - unfold HadoopPerformanceService._worker, sampled.
    omap_pieces. by rewrite omap_log_map.
  - unfold CamusPerformanceService._worker, CamusPerformanceService.create_camus_props, sampled.
    omap_pieces. by rewrite !omap_log_map.
  - unfold EndToEndLatencyService._worker.
    apply (sampled_latency_loop (idx - 1)).
Qed.

(** ** Exceptions end a worker *)

Lemma die_last_app (pre acts : list action) :
  forallb (fun a => negb (is_Die a)) pre = true ->
  die_last (pre ++ acts) = die_last acts.
Proof.
  induction pre as [|a pre IH]; intros Hpre; [reflexivity|].
  cbn in Hpre. apply andb_true_iff in Hpre as [Ha Hpre].
  cbn [app]. destruct a; try discriminate Ha; cbn [die_last]; by apply IH.
Qed.

Lemma die_last_end (pre post : list action) (e : Py.exn) :
  die_last (pre ++ Die e :: post) = true -> post = [].
Proof.
  induction pre as [|a pre IH]; cbn [app die_last].
  - by destruct post.
  - destruct a; try exact IH.
    destruct (pre ++ Die e :: post) eqn:E; [by destruct pre|discriminate].
Qed.

Lemma logs_never_die (lvl : level) (fmt : string) (lines : list string) :
  forallb (fun a => negb (is_Die a))
    (flat_map (fun _ : string => [Log lvl fmt]) lines) = true.
Proof. by apply forallb_flat_map. Qed.

Lemma log_map_never_dies (lvl : level) (fmt : string) (lines : list string) :
  forallb (fun a => negb (is_Die a)) (map (fun _ : string => Log lvl fmt) lines) = true.
Proof. induction lines; [reflexivity|]. cbn. exact IHlines. Qed.

Lemma die_last_store_or_die (slot : nat) (parsed : Py.result record) :
  die_last (store_or_die slot parsed) = true.
Proof. by destruct parsed. Qed.

Lemma die_last_latency_loop (slot : nat) (lines : list string) :
  forall results, die_last (EndToEndLatencyService.loop slot results lines) = true.
Proof.
  induction lines as [|line lines IH]; intros results; [reflexivity|].
  cbn [EndToEndLatencyService.loop die_last].
  destruct (EndToEndLatencyService.on_line line results); [apply IH|reflexivity].
Qed.

Lemma die_last_worker (svc : service) (idx : nat) (node : Node) :
  die_last (worker svc idx node) = true.
Proof.
  destruct svc as [self|self|self|self|self|self|self|self]; cbn [worker].
  - assert (forall acts, forallb (fun a => negb (is_Die a)) acts = true ->
                          die_last acts = true) as Hnever.
    { intros acts Hacts. rewrite <- (app_nil_r acts). by rewrite die_last_app. }
    apply Hnever, producer_worker_never_dies.
  - unfold RestProducerPerformanceService._worker. rewrite consume_spec.
    cbn [app die_last]. rewrite die_last_app by apply logs_never_die.
    apply die_last_store_or_die.
  - unfold ConsumerPerformanceService._worker. rewrite consume_spec.
    cbn [app die_last]. rewrite die_last_app by apply logs_never_die.
    apply die_last_store_or_die.
  - unfold RestConsumerPerformanceService._worker. rewrite consume_spec.
    cbn [app die_last]. rewrite die_last_app by apply logs_never_die.
    apply die_last_store_or_die.
  - unfold SchemaRegistryPerformanceService._worker. rewrite consume_spec.
    cbn [app die_last]. rewrite die_last_app by apply logs_never_die.
    apply die_last_store_or_die.
  - unfold HadoopPerformanceService._worker. cbn [app die_last].
    rewrite <- (app_nil_r (map _ _)). by rewrite die_last_app by apply log_map_never_dies.
  - unfold CamusPerformanceService._worker, CamusPerformanceService.create_camus_props.
    cbn [app die_last]. rewrite die_last_app by apply log_map_never_dies.
    cbn [app die_last].
    rewrite <- (app_nil_r (map _ _)). by rewrite die_last_app by apply log_map_never_dies.
  - unfold EndToEndLatencyService._worker. cbn [app die_last].
    apply die_last_latency_loop.
Qed.

(** ** The actions of one worker in the trace *)

Lemma by_worker_app (idx : nat) (tr new : list event) :
  by_worker idx (tr ++ new) = by_worker idx tr ++ by_worker idx new.
Proof. apply omap_app. Qed.

Lemma by_worker_main (idx : nat) (acts : list action) :
  by_worker idx (map (pair Main) acts) = [].
Proof.
  apply omap_none. intros ev Hev. by apply in_map_iff in Hev as (a & <- & _).
Qed.

Lemma by_worker_same (idx : nat) (a : action) :
  by_worker idx [(Worker idx, a)] = [a].
Proof. unfold by_worker. cbn. by rewrite Nat.eqb_refl. Qed.

Lemma by_worker_other (idx idx' : nat) (a : action) :
  idx' <> idx -> by_worker idx [(Worker idx', a)] = [].
Proof.
  intros Hne. unfold by_worker. cbn.
  by apply Nat.eqb_neq in Hne as ->.
Qed.

Lemma stored_snoc (acts : list action) (a : action) :
  stored (acts ++ [a]) =
  match a with StoreResult _ r _ => Some r | _ => stored acts end.
Proof.
  unfold stored. rewrite omap_app.
  destruct a; try (cbn; by rewrite app_nil_r).
  cbn. apply last_snoc.
Qed.

Lemma sampled_snoc (acts : list action) (a : action) :
  sampled (acts ++ [a]) =
  match a with AppendStat _ r => sampled acts ++ [r] | _ => sampled acts end.
Proof.
  unfold sampled. rewrite omap_app.
  destruct a; try (cbn; by rewrite app_nil_r). reflexivity.
Qed.

(** ** Runs, exactly *)

Section Runs.

Context {Base : Type}.
Variable Service_start : Base -> Base * list Node.
Variable Service_wait : Base -> Base.
Variable Service_stop : Base -> Base.

Import PerformanceService.

Local Abbreviation state := (PerformanceService.state Base).
Local Abbreviation start := (PerformanceService.start Service_start).
Local Abbreviation wait := (PerformanceService.wait Service_wait).
Local Abbreviation stop := (PerformanceService.stop Service_stop).
Local Abbreviation thread_step := PerformanceService.thread_step.
Local Abbreviation thread_steps := PerformanceService.thread_steps.

(** A step of a thread whose slot exists does its next action as it is. *)
Lemma thread_step_exact (h : nat) (s s' : state) th a rest :
  threads s !! h = Some th -> th_todo th = a :: rest ->
  allowed (th_idx th) a = true ->
  th_idx th - 1 < length (results s) ->
  th_idx th - 1 < length (stats s) ->
  thread_step h s = Some s' ->
  nodes s' = nodes s /\
  trace s' = trace s ++ [(Worker (th_idx th), a)] /\
  threads s' =
    alter (fun th => {| th_idx := th_idx th; th_node := th_node th;
                        th_todo := if is_Die a then [] else rest |}) h (threads s) /\
  results s' =
    match a with
    | StoreResult slot r _ => <[slot := Some r]> (results s)
    | _ => results s
    end /\
  stats s' =
    match a with
    | AppendStat slot r => alter (fun l => l ++ [r]) slot (stats s)
    | _ => stats s
    end.
Proof.
  intros Hlook Htodo Ha Hres Hstats. unfold PerformanceService.thread_step.
  rewrite Hlook, Htodo. intros Hstep. injection Hstep as <-.
  destruct a as [lvl fmt|node cmd|name node|node|slot r|slot r hd|e|idx|m|m e];
    try discriminate Ha; try done.
  - cbn in Ha. apply Nat.eqb_eq in Ha as ->.
    apply Nat.ltb_lt in Hstats as ->. done.
  - cbn in Ha. apply Nat.eqb_eq in Ha as ->.
    apply Nat.ltb_lt in Hres as ->. done.
Qed.

Lemma exact_inv_start svc (b : Base) :
  exact_inv svc (nodes (start (init svc b))) (start (init svc b)).
Proof.
  unfold PerformanceService.start. cbn.
  destruct (Service_start b) as [b' ns]. cbn.
  split; [done|]. split; [apply length_replicate|].
  split; [apply length_replicate|]. split; [apply length_imap|].
  intros h th Hlook.
  apply list_lookup_imap_Some in Hlook as (node & Hnode & ->). cbn.
  rewrite by_worker_main. cbn [app].
  apply lookup_lt_Some in Hnode as Hlt.
  split; [done|]. split; [done|]. split; [done|].
  split; by apply lookup_replicate.
Qed.

Lemma exact_inv_thread svc ns (h : nat) (s s' : state) :
  exact_inv svc ns s -> thread_step h s = Some s' -> exact_inv svc ns s'.
Proof.
  intros (Hnodes & Hres & Hstats & Hlen & Hth) Hstep.
  assert (exists th a rest, threads s !! h = Some th /\ th_todo th = a :: rest)
    as (th & a & rest & Hlook & Htodo).
  { apply thread_step_spec in Hstep as (th & a & rest & ? & ? & ? & ? & _).
    by exists th, a, rest. }
  destruct (Hth h th Hlook) as (Hidx & Hnode & Hprog & Hslot & Hsamples).
  rewrite Htodo in Hprog.
  assert (h < length ns) as Hh by (by apply lookup_lt_Some in Hnode).
  assert (allowed (S h) a = true) as Ha.
  { pose proof (worker_allowed svc (S h) (th_node th)) as Hall.
    rewrite forallb_forall in Hall. apply Hall.
    rewrite <- Hprog. apply in_or_app. right. by left. }
  destruct (thread_step_exact h s s' th a rest Hlook Htodo)
    as (Hnodes' & Htrace & Hthreads & Hres' & Hstats'); [| | |done|].
  { by rewrite Hidx. }
  { rewrite Hidx, Hres. cbn. lia. }
  { rewrite Hidx, Hstats. cbn. lia. }
  rewrite Hidx in Htrace.
  split; [congruence|].
  split; [rewrite Hres'; destruct a; rewrite ?length_insert; done|].
  split; [rewrite Hstats'; destruct a; rewrite ?length_alter; done|].
  split; [by rewrite Hthreads, length_alter|].
  intros h' th' Hlook'. rewrite Hthreads in Hlook'. rewrite Htrace, by_worker_app.
  destruct (decide (h = h')) as [<-|Hne].
  - rewrite list_lookup_alter_eq, Hlook in Hlook'. injection Hlook' as <-.
    cbn [th_idx th_node th_todo].
    rewrite by_worker_same, stored_snoc, sampled_snoc.
    split; [done|]. split; [done|]. split; [|split].
    + destruct (is_Die a) eqn:Hdie.
      * destruct a; try discriminate Hdie.
        pose proof (die_last_worker svc (S h) (th_node th)) as Hlast.
        rewrite <- Hprog in Hlast. apply die_last_end in Hlast as ->.
        by rewrite app_nil_r.
      * by rewrite <- app_assoc.
    + rewrite Hres'. destruct a; try exact Hslot.
      cbn in Ha. apply Nat.eqb_eq in Ha. rewrite Nat.sub_0_r in Ha. subst slot.
      apply list_lookup_insert_eq. lia.
    + rewrite Hstats'. destruct a; try exact Hsamples.
      cbn in Ha. apply Nat.eqb_eq in Ha. rewrite Nat.sub_0_r in Ha. subst slot.
      by rewrite list_lookup_alter_eq, Hsamples.
  - rewrite list_lookup_alter_ne in Hlook' by done.
    destruct (Hth h' th' Hlook') as (Hidx' & Hnode' & Hprog' & Hslot' & Hsamples').
    rewrite by_worker_other, app_nil_r by lia.
    split; [done|]. split; [done|]. split; [done|]. split.
    + rewrite Hres'. destruct a; try exact Hslot'.
      cbn in Ha. apply Nat.eqb_eq in Ha. rewrite Nat.sub_0_r in Ha. subst slot.
      by rewrite list_lookup_insert_ne.
    + rewrite Hstats'. destruct a; try exact Hsamples'.
      cbn in Ha. apply Nat.eqb_eq in Ha. rewrite Nat.sub_0_r in Ha. subst slot.
      by rewrite list_lookup_alter_ne.
Qed.

Lemma exact_inv_threads svc ns (s s' : state) :
  exact_inv svc ns s -> rtc thread_steps s s' -> exact_inv svc ns s'.
Proof.
  intros Hinv Hrun. induction Hrun as [|x y z [h Hstep] _ IH]; [done|].
  apply IH. by apply (exact_inv_thread svc ns h x).
Qed.

(** What [wait] leaves when it returns. *)
Lemma wait_return_inv (s s' : state) :
  wait s = Return s' ->
  exists hs : list nat,
    worker_threads s = Bound hs /\
    forallb (finished (set_base (Service_wait (base s)) s)) hs = true /\
    nodes s' = nodes s /\ results s' = results s /\ stats s' = stats s /\
    threads s' = threads s /\ worker_threads s' = PyNone /\
    trace s' =
      trace s ++ map (pair Main)
        (map (fun _ => Log DEBUG "Waiting for %s worker %d to finish") hs
         ++ [Returned Wait]).
Proof.
  unfold PerformanceService.wait. cbn.
  destruct (worker_threads s) as [| |hs]; try discriminate.
  destruct (forallb _ hs) eqn:Hall; [|discriminate].
  intros Hret. injection Hret as <-. exists hs. by cbn.
Qed.

(** The state of a run when [wait] returns, slot by slot. *)
Lemma run_exact svc (b : Base) (s2 s3 : state) :
  rtc thread_steps (start (init svc b)) s2 ->
  wait s2 = Return s3 ->
  length (results s3) = length (nodes s3) /\
  length (stats s3) = length (nodes s3) /\
  forall i node,
    nodes s3 !! i = Some node ->
    by_worker (S i) (trace s3) = worker svc (S i) node /\
    results s3 !! i = Some (final_record svc node) /\
    stats s3 !! i = Some (samples svc node).
Proof.
  intros Hrun Hwait.
  pose proof (exact_inv_threads svc _ _ s2 (exact_inv_start svc b) Hrun)
    as (Hnodes & Hres & Hstats & Hlen & Hth).
  destruct (thread_steps_keep_worker_threads _ _ Hrun) as [Hwt _].
  apply wait_return_inv in Hwait
    as (hs & Hhs & Hall & Hn3 & Hr3 & Hs3 & _ & _ & Ht3).
  assert (hs = seq 0 (length (nodes (start (init svc b))))) as ->.
  { rewrite Hwt in Hhs. revert Hhs. unfold PerformanceService.start. cbn.
    destruct (Service_start b). cbn. congruence. }
  rewrite Hn3, Hr3, Hs3, Hnodes. split; [done|]. split; [done|].
  intros i node Hnode.
  assert (i < length (threads s2)) as Hi.
  { rewrite Hlen. by apply lookup_lt_Some in Hnode. }
  destruct (lookup_lt_is_Some_2 _ _ Hi) as [th Hlook].
  destruct (Hth i th Hlook) as (_ & Hnode' & Hprog & Hslot & Hsamples).
  rewrite Hnode in Hnode'. injection Hnode' as ->.
  assert (th_todo th = []) as Hdone.
  { rewrite forallb_forall in Hall.
    specialize (Hall i). unfold PerformanceService.finished in Hall. cbn in Hall.
    rewrite Hlook in Hall.
    destruct th as [idx nd [|a todo]]; [done|].
    discriminate Hall. apply in_seq. lia. }
  rewrite Hdone, app_nil_r in Hprog.
  rewrite Ht3, by_worker_app, by_worker_main, app_nil_r.
  split; [done|]. split.
  - by rewrite Hslot, Hprog, stored_worker.
  - by rewrite Hsamples, Hprog, sampled_worker.
Qed.

(** X1: the results of a run do not depend on the interleaving.  When
    [wait] returns, the result list is, node by node, the record that the
    output of the node determines: the parsed last line (the fold of the
    marker lines for the latency service), or [None] where that parse fails
    and for the classes that only log. *)
Theorem results_after_wait svc (b : Base) (s2 s3 : state) :
  rtc thread_steps (start (init svc b)) s2 ->
  wait s2 = Return s3 ->
  results s3 = map (final_record svc) (nodes s3).
Proof.
  intros Hrun Hwait.
  destruct (run_exact svc b s2 s3 Hrun Hwait) as (Hres & _ & Hslots).
  apply (list_eq_same_length _ _ (length (nodes s3))); [by rewrite length_map|done|].
  intros i x y Hi Hx Hy.
  rewrite list_lookup_fmap in Hy.
  destruct (nodes s3 !! i) as [node|] eqn:Hnode; [|discriminate Hy].
  destruct (Hslots i node Hnode) as (_ & Hslot & _). cbn in Hy. congruence.
Qed.

(** X2: when [wait] returns, the sample list of each node holds the records
    of the lines of its output that [parse_stats] accepts, in the order of
    the stream, for a producer with intermediate sampling; it is empty for
    every other service. *)
Theorem stats_after_wait svc (b : Base) (s2 s3 : state) :
  rtc thread_steps (start (init svc b)) s2 ->
  wait s2 = Return s3 ->
  stats s3 = map (samples svc) (nodes s3).
Proof.
  intros Hrun Hwait.
  destruct (run_exact svc b s2 s3 Hrun Hwait) as (_ & Hstats & Hslots).
  apply (list_eq_same_length _ _ (length (nodes s3))); [by rewrite length_map|done|].
  intros i x y Hi Hx Hy.
  rewrite list_lookup_fmap in Hy.
  destruct (nodes s3 !! i) as [node|] eqn:Hnode; [|discriminate Hy].
  destruct (Hslots i node Hnode) as (_ & _ & Hslot). cbn in Hy. congruence.
Qed.

(** X3: when [wait] returns, every worker has done all its actions: the
    actions of the worker of node [i] in the trace are, in order, exactly
    those of [_worker(i, node)], none left out and none repeated. *)
Theorem worker_actions_complete_in_order svc (b : Base) (s2 s3 : state) :
  rtc thread_steps (start (init svc b)) s2 ->
  wait s2 = Return s3 ->
  forall i node,
    nodes s3 !! i = Some node ->
    by_worker (S i) (trace s3) = worker svc (S i) node.
Proof.
  intros Hrun Hwait i node Hnode.
  by destruct (run_exact svc b s2 s3 Hrun Hwait) as (_ & _ & Hslots);
    destruct (Hslots i node Hnode) as (? & _ & _).
Qed.

(** X4: a Hadoop or Camus run produces no result: when [wait] returns every
    result slot is [None] and every sample list is empty, whatever the nodes
    printed. *)
Theorem log_only_runs_leave_slots_empty svc (b : Base) (s2 s3 : state) :
  log_only svc = true ->
  rtc thread_steps (start (init svc b)) s2 ->
  wait s2 = Return s3 ->
  results s3 = replicate (length (nodes s3)) None /\
  stats s3 = replicate (length (nodes s3)) [].
Proof.
  intros Hlog Hrun Hwait.
  destruct (run_exact svc b s2 s3 Hrun Hwait) as (Hres & Hstats & Hslots).
  split.
  - apply (list_eq_same_length _ _ (length (nodes s3)));
      [apply length_replicate|done|].
    intros i x y Hi Hx Hy. apply lookup_replicate in Hy as [-> _].
    destruct (lookup_lt_is_Some_2 (nodes s3) i Hi) as [node Hnode].
    destruct (Hslots i node Hnode) as (_ & Hslot & _).
    rewrite Hslot in Hx. injection Hx as <-.
    by destruct svc.
  - apply (list_eq_same_length _ _ (length (nodes s3)));
      [apply length_replicate|done|].
    intros i x y Hi Hx Hy. apply lookup_replicate in Hy as [-> _].
    destruct (lookup_lt_is_Some_2 (nodes s3) i Hi) as [node Hnode].
    destruct (Hslots i node Hnode) as (_ & _ & Hslot).
    rewrite Hslot in Hx. injection Hx as <-.
    by destruct svc.
Qed.

(** X5: in a producer run with intermediate sampling, the summary is also a
    sample: when [wait] returns, a filled result slot holds the last record
    of the sample list of the same node. *)
Theorem producer_result_is_last_sample
    (self : ProducerPerformanceService.t) (b : Base) (s2 s3 : state) :
  ProducerPerformanceService.intermediate_stats self = true ->
  rtc thread_steps (start (init (Producer self) b)) s2 ->
  wait s2 = Return s3 ->
  forall i r,
    results s3 !! i = Some (Some r) ->
    exists l, stats s3 !! i = Some l /\ last l = Some r.
Proof.
  intros Hon Hrun Hwait i r Hslot.
  destruct (run_exact (Producer self) b s2 s3 Hrun Hwait) as (Hres & _ & Hslots).
  assert (i < length (nodes s3)) as Hi.
  { rewrite <- Hres. by apply lookup_lt_Some in Hslot. }
  destruct (lookup_lt_is_Some_2 (nodes s3) i Hi) as [node Hnode].
  destruct (Hslots i node Hnode) as (_ & Hrec & Hsamples).
  rewrite Hrec in Hslot. injection Hslot as Hfinal.
  exists (samples (Producer self) node). split; [done|].
  cbn [samples final_record] in Hfinal |- *. rewrite Hon.
  destruct (last (ssh_capture node (ProducerPerformanceService.cmd self)))
    as [line|] eqn:Hlast; [|discriminate Hfinal].
  apply last_Some in Hlast as [before ->].
  rewrite omap_app.
  change (omap (fun line0 => to_option (parse_stats (Some line0))) [line])
    with (match to_option (parse_stats (Some line)) with
          | Some r => [r]
          | None => []
          end).
  rewrite Hfinal. apply last_snoc.
Qed.

Lemma frees_app (tr new : list event) :
  frees (tr ++ new) = frees tr ++ frees new.
Proof. apply omap_app. Qed.


(** What [stop] leaves when it returns, and when it does. *)
Lemma stop_return_inv (s s' : state) :
  stop s = Return s' ->
  worker_threads s = PyNone /\ worker_threads s' = PyNone /\
  nodes s' = nodes s /\ results s' = results s /\
  trace s' = trace s ++ map (pair Main) (stop_actions (nodes s)).
Proof.
  unfold PerformanceService.stop. cbn.
  destruct (worker_threads s) eqn:Hwt; try discriminate.
  intros Hret. by injection Hret as <-.
Qed.

Lemma stop_returns (s : state) :
  worker_threads s = PyNone -> exists s', stop s = Return s'.
Proof.
  intros Hwt. unfold PerformanceService.stop. cbn. rewrite Hwt. eauto.
Qed.


(** X15: [stop] can be repeated.  After a [stop] that returned, a second
    [stop] returns as well and releases every node once more, so that
    each node has been released twice. *)
Theorem second_stop_releases_again (s s' : state) :
  stop s = Return s' ->
  exists s'',
    stop s' = Return s'' /\
    frees (trace s'') = frees (trace s) ++ nodes s ++ nodes s.
Proof.
  intros Hret.
  apply stop_return_inv in Hret as (_ & Hnone & Hnodes & _ & Htrace).
  destruct (stop_returns s' Hnone) as [s'' Hret'].
  exists s''. split; [done|].
  apply stop_return_inv in Hret' as (_ & _ & _ & _ & Htrace').
  rewrite Htrace', Htrace, Hnodes, !frees_app, !frees_stop_actions.
  by rewrite <- app_assoc.
Qed.


(** X17: [start] does not end the workers of an earlier [start].  A worker
    that is about to store its record when [start] is called again stores
    it afterwards into the new result list, if the list has that slot: a
    second [start] without [wait] mixes the records of two runs. *)
Theorem restart_keeps_old_workers (s : state) (h : nat) th slot r hd rest :
  threads s !! h = Some th ->
  th_todo th = StoreResult slot r hd :: rest ->
  slot < length (nodes (start s)) ->
  results (start s) !! slot = Some None /\
  exists s',
    thread_step h (start s) = Some s' /\
    results s' !! slot = Some (Some r).
Proof.
  intros Hlook Htodo Hslot.
  assert (threads (start s) !! h = Some th /\
          results (start s) = replicate (length (nodes (start s))) None)
    as [Hlook' Hres].
  { unfold PerformanceService.start. destruct (Service_start (base s)). cbn.
    split; [|done]. by apply lookup_app_l_Some. }
  split.
  { rewrite Hres. by apply lookup_replicate. }
  unfold PerformanceService.thread_step. rewrite Hlook', Htodo.
  assert ((slot <? length (results (start s)))%nat = true) as ->.
  { apply Nat.ltb_lt. by rewrite Hres, length_replicate. }
  eexists. split; [reflexivity|]. cbn.
  apply list_lookup_insert_eq. by rewrite Hres, length_replicate.
Qed.

End Runs.

Lemma results_after_wait_witness :
  PerformanceService.results run_waited =
  map (final_record (Producer sampling_producer)) (PerformanceService.nodes run_waited).
Proof.
  apply (results_after_wait two_nodes no_op (Producer sampling_producer) tt run_finished).
  - apply (run_schedule_steps [0; 1; 0; 1; 0; 1; 0; 1; 0; 0]).
  - vm_compute. reflexivity.
Defined.

Lemma stats_after_wait_witness :
  PerformanceService.stats run_waited =
  map (samples (Producer sampling_producer)) (PerformanceService.nodes run_waited).
Proof.
  apply (stats_after_wait two_nodes no_op (Producer sampling_producer) tt run_finished).
  - apply (run_schedule_steps [0; 1; 0; 1; 0; 1; 0; 1; 0; 0]).
  - vm_compute. reflexivity.
Defined.

Lemma worker_actions_complete_in_order_witness :
  by_worker 2 (PerformanceService.trace run_waited) =
  worker (Producer sampling_producer) 2 garbled_node.
Proof.
  apply (worker_actions_complete_in_order two_nodes no_op
           (Producer sampling_producer) tt run_finished run_waited).
  - apply (run_schedule_steps [0; 1; 0; 1; 0; 1; 0; 1; 0; 0]).
  - vm_compute. reflexivity.
  - reflexivity.
Defined.

Lemma log_only_runs_leave_slots_empty_witness :
  PerformanceService.results hadoop_run_waited =
    replicate (length (PerformanceService.nodes hadoop_run_waited)) None /\
  PerformanceService.stats hadoop_run_waited =
    replicate (length (PerformanceService.nodes hadoop_run_waited)) [].
Proof.
  apply (log_only_runs_leave_slots_empty two_nodes no_op hadoop_service tt
           hadoop_run_finished).
  - reflexivity.
  - apply (run_schedule_steps [0; 1; 0; 1; 0; 1; 0; 1; 0; 1; 0]).
  - vm_compute. reflexivity.
Defined.

Lemma producer_result_is_last_sample_witness :
  exists l,
    PerformanceService.stats run_waited !! 0 = Some l /\ last l = Some summary_parsed.
Proof.
  apply (producer_result_is_last_sample two_nodes no_op sampling_producer tt
           run_finished run_waited).
  - reflexivity.
  - apply (run_schedule_steps [0; 1; 0; 1; 0; 1; 0; 1; 0; 0]).
  - vm_compute. reflexivity.
  - vm_compute. reflexivity.
Defined.

Lemma second_stop_releases_again_witness :
  exists s'',
    PerformanceService.stop no_op run_stopped = PerformanceService.Return s'' /\
    frees (PerformanceService.trace s'') =
      frees (PerformanceService.trace run_waited)
      ++ PerformanceService.nodes run_waited ++ PerformanceService.nodes run_waited.
Proof.
  apply (second_stop_releases_again no_op run_waited run_stopped).
  vm_compute. reflexivity.
Defined.

Lemma restart_keeps_old_workers_witness :
  PerformanceService.results (PerformanceService.start two_nodes run_before_store) !! 0
    = Some None /\
  exists s',
    PerformanceService.thread_step 0 (PerformanceService.start two_nodes run_before_store)
      = Some s' /\
    PerformanceService.results s' !! 0 = Some (Some summary_parsed).
Proof.
  eapply (restart_keeps_old_workers two_nodes run_before_store 0).
  - vm_compute. reflexivity.
  - vm_compute. reflexivity.
  - vm_compute. lia.
Defined.

(** ** Workers on their own *)

(** X6: the producer worker contains every failure.  For every stream, the
    empty one included, no exception leaves the worker, and its last action
    is the store of the parsed last line when the line parses and the error
    log otherwise, never both. *)
Theorem producer_worker_contains_failures
    (self : ProducerPerformanceService.t) (idx : nat) (node : Node) :
  forallb (fun a => negb (is_Die a))
    (ProducerPerformanceService._worker self idx node) = true /\
  last (ProducerPerformanceService._worker self idx node) =
    Some match parse_stats
                 (last (ssh_capture node (ProducerPerformanceService.cmd self))) with
         | Py.Ok r => StoreResult (idx - 1) r (Some "Bad last line: %s")
         | Py.Raise _ => Log ERROR "Bad last line: %s"
         end /\
  length (List.filter is_StoreResult
            (ProducerPerformanceService._worker self idx node)) <= 1.
Proof.
  split; [apply producer_worker_never_dies|].
  unfold ProducerPerformanceService._worker. rewrite consume_spec. split.
  - unfold ProducerPerformanceService.on_end.
    destruct (parse_stats _); rewrite !app_assoc; apply last_snoc.
  - rewrite !List.filter_app.
    assert (List.filter is_StoreResult
              (flat_map (ProducerPerformanceService.on_line self idx)
                 (ssh_capture node (ProducerPerformanceService.cmd self))) = []) as ->.
    { induction (ssh_capture node (ProducerPerformanceService.cmd self))
        as [|line lines IH]; [reflexivity|].
      cbn [flat_map]. rewrite List.filter_app, IH, app_nil_r.
      unfold ProducerPerformanceService.on_line.
      destruct (ProducerPerformanceService.intermediate_stats self); [|reflexivity].
      by destruct (parse_stats (Some line)). }
    unfold ProducerPerformanceService.on_end.
    destruct (parse_stats _); cbn; lia.
Qed.

(** X7: a stream without any line.  [last] stays [None]: the producer
    worker logs the error and returns; the REST producer, consumer, REST
    consumer and schema registry workers call [split] on [None] and die with
    [AttributeError]; the latency worker stores the empty dictionary. *)
Theorem workers_on_an_empty_stream (node : Node) (idx : nat) :
  (forall cmd, ssh_capture node cmd = []) ->
  (forall self,
     ProducerPerformanceService._worker self idx node =
       [Log DEBUG "Producer performance %d command: %s";
        Ssh node (ProducerPerformanceService.cmd self);
        Log ERROR "Bad last line: %s"]) /\
  (forall self,
     RestProducerPerformanceService._worker self idx node =
       [Log DEBUG "REST producer performance %d command: %s";
        Ssh node (RestProducerPerformanceService.cmd self);
        Die Py.AttributeError]) /\
  (forall self,
     ConsumerPerformanceService._worker self idx node =
       [Log DEBUG "Consumer performance %d command: %s";
        Ssh node (ConsumerPerformanceService.cmd self);
        Die Py.AttributeError]) /\
  (forall self,
     RestConsumerPerformanceService._worker self idx node =
       [Log DEBUG "REST Consumer performance %d command: %s";
        Ssh node (RestConsumerPerformanceService.cmd self);
        Die Py.AttributeError]) /\
  (forall self,
     SchemaRegistryPerformanceService._worker self idx node =
       [Log DEBUG "Schema Registry performance %d command: %s";
        Ssh node (SchemaRegistryPerformanceService.cmd self);
        Die Py.AttributeError]) /\
  (forall self,
     EndToEndLatencyService._worker self idx node =
       [Log DEBUG "End-to-end latency %d command: %s";
        Ssh node (EndToEndLatencyService.cmd self);
        StoreResult (idx - 1) ∅ None]).
Proof.
  intros Hempty. repeat split; intros self.
  - unfold ProducerPerformanceService._worker. by rewrite Hempty.
  - unfold RestProducerPerformanceService._worker. by rewrite Hempty.
  - unfold ConsumerPerformanceService._worker. by rewrite Hempty.
  - unfold RestConsumerPerformanceService._worker. by rewrite Hempty.
  - unfold SchemaRegistryPerformanceService._worker. by rewrite Hempty.
  - unfold EndToEndLatencyService._worker. by rewrite Hempty.
Qed.

Lemma workers_on_an_empty_stream_witness :
  ConsumerPerformanceService._worker consumer_service 3 quiet_node =
    [Log DEBUG "Consumer performance %d command: %s";
     Ssh quiet_node (ConsumerPerformanceService.cmd consumer_service);
     Die Py.AttributeError].
Proof.
  destruct (workers_on_an_empty_stream quiet_node 3) as (_ & _ & Hconsumer & _).
  - reflexivity.
  - apply Hconsumer.
Defined.

Lemma latency_loop_nonempty (slot : nat) (results : record) (lines : list string) :
  EndToEndLatencyService.loop slot results lines <> [].
Proof. by destruct lines. Qed.

Lemma on_line_ignores_other_lines (line : string) (results : record) :
  is_marker line = false ->
  EndToEndLatencyService.on_line line results = Py.Ok results.
Proof.
  unfold is_marker. intros Hm. apply orb_false_iff in Hm as [Havg Hperc].
  unfold EndToEndLatencyService.on_line. by rewrite Havg, Hperc.
Qed.

(** X13: the latency worker reads the marker lines only.  A line that
    starts neither with ["Avg latency:"] nor with ["Percentiles"] leaves the
    dictionary as it is, so the end of the worker (the record it stores, or
    the exception it dies of) is the same as on the stream with those lines
    removed. *)
Theorem latency_worker_ignores_other_lines
    (slot : nat) (results : record) (lines : list string) :
  last (EndToEndLatencyService.loop slot results lines) =
  last (EndToEndLatencyService.loop slot results (List.filter is_marker lines)) /\
  latency_fold results lines = latency_fold results (List.filter is_marker lines).
Proof.
  revert results. induction lines as [|line lines IH]; intros results; [done|].
  cbn [List.filter]. destruct (is_marker line) eqn:Hm.
  - unfold latency_fold. cbn [EndToEndLatencyService.loop fold_left].
    rewrite bind_Ok.
    destruct (EndToEndLatencyService.on_line line results) as [results'|e];
      [|by rewrite !latency_fold_raise].
    destruct (IH results') as [IHlast IHfold]. split; [|exact IHfold].
    rewrite !last_cons, IHlast. done.
  - unfold latency_fold. cbn [EndToEndLatencyService.loop fold_left].
    rewrite bind_Ok, on_line_ignores_other_lines by done.
    destruct (IH results) as [IHlast IHfold]. split; [|exact IHfold].
    rewrite last_cons, IHlast.
    destruct (last (EndToEndLatencyService.loop slot results (List.filter is_marker lines)))
      eqn:E; [done|].
    apply last_None in E. by apply latency_loop_nonempty in E.
Qed.

(** ** Settings *)

Lemma string_app_assoc (a b c : string) : (a +:+ b) +:+ c = a +:+ (b +:+ c).
Proof.
  induction a as [|x a IH]; [reflexivity|].
  change (String x ((a +:+ b) +:+ c) = String x (a +:+ (b +:+ c))).
  by rewrite IH.
Qed.

Lemma string_app_empty_r (a : string) : a +:+ EmptyString = a.
Proof.
  induction a as [|x a IH]; [reflexivity|].
  change (String x (a +:+ EmptyString) = String x a). by rewrite IH.
Qed.

(** X14: the settings are appended to the command in the order of the
    mapping, each as [" key=value"], and leave the text before them as it
    is; a mapping given in two parts is appended part after part. *)
Theorem settings_are_appended_in_order (cmd : string) (settings more : Settings) :
  add_settings cmd settings = cmd +:+ settings_text settings /\
  add_settings cmd (settings ++ more) = add_settings (add_settings cmd settings) more /\
  String.prefix cmd (add_settings cmd settings) = true.
Proof.
  assert (forall l c, add_settings c l = c +:+ settings_text l) as Htext.
  { induction l as [|[k v] l IH]; intros c.
    - unfold add_settings, settings_text. cbn. by rewrite string_app_empty_r.
    - change (add_settings c ((k, v) :: l))
        with (add_settings (c +:+ " " +:+ k +:+ "=" +:+ v) l).
      rewrite IH.
      change (settings_text ((k, v) :: l))
        with ((" " +:+ k +:+ "=" +:+ v) +:+ settings_text l).
      by rewrite !string_app_assoc. }
  split; [apply Htext|]. split.
  - unfold add_settings. apply fold_left_app.
  - rewrite Htext. generalize (settings_text settings). intros t.
    induction cmd as [|x c IH]; cbn.
    + by destruct t.
    + change (String x c +:+ t) with (String x (c +:+ t)). cbn.
      destruct (ascii_dec x x); [exact IH|done].
Qed.
